(** * NN accelerator driver (software/nn_driver.c, software/nn_driver.h)
      and its demo application (software/main.c)

    A shallow embedding of the driver of the memory-mapped neural-network
    accelerator and of the demo that exercises it, and the properties of the
    control protocol and of the interpretation of the fixed-point output
    vector.

    Conventions.
    - C integers are [Z]; a value of type [u16], [u32] or [s16] is a [Z] in the
      range of its type. Value-preserving conversions (zero extension of a
      [u16] to a [u32], promotion of an [s16] to [int]) are the identity;
      arithmetic that can leave the range of its type ([elapsed += ...] on a
      [u32], [i++] on a [u16]) has its wrap-around written out.
    - [float] is IEEE-754 binary32, given by the [SpecFloat] operations at
      precision 24 and maximal exponent 128.
    - The platform primitives [Xil_In32], [Xil_Out32] and [usleep] act on a
      chronological bus trace; what a load returns is decided by the device,
      a function of the trace so far and of the address. *)

From Stdlib Require Import ZArith List Bool Lia.
From Stdlib Require Import Floats.SpecFloat.
From Stdlib Require Import QArith Qabs.
Import ListNotations.
Local Open Scope Z_scope.

(** ** Integer types *)

Definition to_u32 (x : Z) : Z := x mod 2 ^ 32.
Definition to_u16 (x : Z) : Z := x mod 2 ^ 16.

Definition is_s16 (x : Z) : Prop := - 2 ^ 15 <= x < 2 ^ 15.

(** ** nn_driver.h: register map and bit fields *)

Definition NN_BASEADDR : Z := 0x43C00000.

Definition NN_REG_CTRL    : Z := 0x00.
Definition NN_REG_STATUS  : Z := 0x04.
Definition NN_REG_NUM_IN  : Z := 0x08.
Definition NN_REG_NUM_H1  : Z := 0x0C.
Definition NN_REG_NUM_H2  : Z := 0x10.
Definition NN_REG_NUM_OUT : Z := 0x14.

Definition NN_CTRL_ENABLE     : Z := Z.shiftl 1 0.
Definition NN_CTRL_START      : Z := Z.shiftl 1 1.
Definition NN_CTRL_SOFT_RESET : Z := Z.shiftl 1 2.

Definition NN_STAT_BUSY        : Z := Z.shiftl 1 0.
Definition NN_STAT_DONE        : Z := Z.shiftl 1 1.
Definition NN_STAT_STATE_MASK  : Z := Z.shiftl 0xF 4.
Definition NN_STAT_STATE_SHIFT : Z := 4.

Definition NN_FRAC_BITS : Z := 11.
Definition NN_SCALE     : Z := Z.shiftl 1 NN_FRAC_BITS.

Definition NN_DEFAULT_NUM_IN  : Z := 784.
Definition NN_DEFAULT_NUM_H1  : Z := 16.
Definition NN_DEFAULT_NUM_H2  : Z := 16.
Definition NN_DEFAULT_NUM_OUT : Z := 10.

(** ** nn_driver.h: data types *)

Record NN_Config := mkConfig {
  base_addr   : Z;  (* u32 *)
  num_inputs  : Z;  (* u16 *)
  num_hidden1 : Z;  (* u16 *)
  num_hidden2 : Z;  (* u16 *)
  num_outputs : Z;  (* u16 *)
  initialized : Z   (* u8  *)
}.

Record NN_Status := mkStatus {
  busy  : Z;  (* u8 *)
  done  : Z;  (* u8 *)
  state : Z   (* u8 *)
}.

(** ** The platform: bus trace, device, world *)

Inductive event : Type :=
| EvRead  (addr val : Z)
| EvWrite (addr val : Z)
| EvSleep (us : Z).

(** A device answers a 32-bit load from what happened so far. *)
Definition device : Type := list event -> Z -> Z.

Record world := mkWorld {
  g_config : NN_Config;
  trace    : list event     (* oldest event first *)
}.

(** [static NN_Config g_config = { ... }] *)
Definition g_config_init : NN_Config :=
  {| base_addr   := NN_BASEADDR;
     num_inputs  := NN_DEFAULT_NUM_IN;
     num_hidden1 := NN_DEFAULT_NUM_H1;
     num_hidden2 := NN_DEFAULT_NUM_H2;
     num_outputs := NN_DEFAULT_NUM_OUT;
     initialized := 0 |}.

Definition world_init : world := {| g_config := g_config_init; trace := [] |}.

(** ** A small state monad for the straight-line driver code *)

Definition M (A : Type) : Type := world -> A * world.

Definition ret {A} (a : A) : M A := fun w => (a, w).
Definition bind {A B} (m : M A) (k : A -> M B) : M B :=
  fun w => let (a, w') := m w in k a w'.

Notation "x <- m ;; k" := (bind m (fun x => k))
  (at level 61, m at next level, right associativity).
Notation "m ;;; k" := (bind m (fun _ => k))
  (at level 61, right associativity).

Definition log (e : event) : M unit :=
  fun w => (tt, {| g_config := g_config w; trace := trace w ++ [e] |}).

Definition get_config : M NN_Config := fun w => (g_config w, w).
Definition set_config (c : NN_Config) : M unit :=
  fun w => (tt, {| g_config := c; trace := trace w |}).

Definition run {A} (m : M A) (w : world) : world := snd (m w).

Section Driver.

Variable dev : device.

(** *** Platform primitives *)

Definition Xil_In32 (addr : Z) : M Z :=
  fun w => let v := to_u32 (dev (trace w) addr) in
           (v, {| g_config := g_config w; trace := trace w ++ [EvRead addr v] |}).

Definition Xil_Out32 (addr val : Z) : M unit := log (EvWrite addr val).

Definition usleep (us : Z) : M unit := log (EvSleep us).

Definition NN_READ (offset : Z) : M Z := Xil_In32 (NN_BASEADDR + offset).
Definition NN_WRITE (offset val : Z) : M unit := Xil_Out32 (NN_BASEADDR + offset) val.

(** *** nn_driver.c *)

Definition NN_Reset : M unit :=
  NN_WRITE NN_REG_CTRL NN_CTRL_SOFT_RESET ;;;
  usleep 10 ;;;
  NN_WRITE NN_REG_CTRL 0 ;;;
  usleep 10.

Definition NN_Configure (num_in num_h1 num_h2 num_out : Z) : M unit :=
  NN_WRITE NN_REG_NUM_IN  num_in ;;;
  NN_WRITE NN_REG_NUM_H1  num_h1 ;;;
  NN_WRITE NN_REG_NUM_H2  num_h2 ;;;
  NN_WRITE NN_REG_NUM_OUT num_out ;;;
  c <- get_config ;;
  set_config {| base_addr   := base_addr c;
                num_inputs  := num_in;
                num_hidden1 := num_h1;
                num_hidden2 := num_h2;
                num_outputs := num_out;
                initialized := initialized c |}.

(** [config] is a pointer: [None] is [NULL]. *)
Definition NN_Init (config : option NN_Config) : M Z :=
  match config with
  | Some c => set_config c          (* memcpy(&g_config, config, sizeof) *)
  | None => ret tt
  end ;;;
  NN_Reset ;;;
  c <- get_config ;;
  NN_Configure (num_inputs c) (num_hidden1 c) (num_hidden2 c) (num_outputs c) ;;;
  c <- get_config ;;
  set_config {| base_addr   := base_addr c;
                num_inputs  := num_inputs c;
                num_hidden1 := num_hidden1 c;
                num_hidden2 := num_hidden2 c;
                num_outputs := num_outputs c;
                initialized := 1 |} ;;;
  ret 0.

Definition NN_IsBusy : M Z :=
  status <- NN_READ NN_REG_STATUS ;;
  ret (if Z.land status NN_STAT_BUSY =? 0 then 0 else 1).

Definition NN_IsDone : M Z :=
  status <- NN_READ NN_REG_STATUS ;;
  ret (if Z.land status NN_STAT_DONE =? 0 then 0 else 1).

Definition NN_GetStatus : M NN_Status :=
  reg <- NN_READ NN_REG_STATUS ;;
  ret {| busy  := if Z.land reg NN_STAT_BUSY =? 0 then 0 else 1;
         done  := if Z.land reg NN_STAT_DONE =? 0 then 0 else 1;
         state := Z.shiftr (Z.land reg NN_STAT_STATE_MASK) NN_STAT_STATE_SHIFT |}.

Definition NN_Start : M unit :=
  ctrl <- NN_READ NN_REG_CTRL ;;
  NN_WRITE NN_REG_CTRL (Z.lor ctrl (Z.lor NN_CTRL_ENABLE NN_CTRL_START)).

Definition poll_interval : Z := 100.

(** The [while (!NN_IsDone())] loop of [NN_WaitDone]; [elapsed] is a [u32].
    [None]: the loop is still running when the fuel is spent. *)
Fixpoint NN_WaitDone_loop (fuel : nat) (timeout_us elapsed : Z) (w : world)
  : option (Z * world) :=
  match fuel with
  | O => None
  | S fuel' =>
      let (d, w1) := NN_IsDone w in
      if d =? 0 then
        if (0 <? timeout_us) && (timeout_us <=? elapsed) then Some (-1, w1)
        else
          let (_, w2) := usleep poll_interval w1 in
          NN_WaitDone_loop fuel' timeout_us (to_u32 (elapsed + poll_interval)) w2
      else Some (0, w1)
  end.

Definition NN_WaitDone (fuel : nat) (timeout_us : Z) (w : world) : option (Z * world) :=
  NN_WaitDone_loop fuel timeout_us 0 w.

(** [inputs] and [outputs] are not touched by the function. *)
Definition NN_RunInference (fuel : nat) (w : world) : option (Z * world) :=
  let (_, w1) :=
    (c <- get_config ;;
     if initialized c =? 0 then NN_Init None ;;; ret tt else ret tt) w in
  let (_, w2) := NN_Start w1 in
  match NN_WaitDone fuel 10000000 w2 with
  | None => None
  | Some (r, w3) => if r <? 0 then Some (-1, w3) else Some (0, w3)
  end.

End Driver.

(** ** Arrays

    A C array argument is the list of its elements; a load outside the array
    is undefined behaviour and gives [None]. *)

Definition load (a : list Z) (i : Z) : option Z :=
  if i <? 0 then None else nth_error a (Z.to_nat i).

(** ** nn_driver.c: NN_Classify *)

(** The [for (u16 i = 1; i < num_outputs; i++)] loop; [i] is a [u16]. *)
Fixpoint NN_Classify_loop (fuel : nat) (outputs : list Z) (num_outputs : Z)
    (i max_val max_idx : Z) : option Z :=
  match fuel with
  | O => None
  | S fuel' =>
      if i <? num_outputs then
        match load outputs i with
        | None => None
        | Some oi =>
            if max_val <? oi
            then NN_Classify_loop fuel' outputs num_outputs (to_u16 (i + 1)) oi i
            else NN_Classify_loop fuel' outputs num_outputs (to_u16 (i + 1)) max_val max_idx
        end
      else Some max_idx
  end.

Definition NN_Classify (outputs : list Z) (num_outputs : Z) : option Z :=
  match load outputs 0 with
  | None => None
  | Some o0 => NN_Classify_loop (S (Z.to_nat num_outputs)) outputs num_outputs 1 o0 0
  end.

(** ** binary32 arithmetic *)

Definition float : Type := spec_float.

Definition prec32 : Z := 24.
Definition emax32 : Z := 128.

Definition fzero : float := S754_zero false.              (* 0.0f *)
Definition fadd : float -> float -> float := SFadd prec32 emax32.
Definition fmul : float -> float -> float := SFmul prec32 emax32.
Definition fdiv : float -> float -> float := SFdiv prec32 emax32.
Definition fgt (x y : float) : bool := SFltb y x.          (* x > y *)

(** Conversion of an integer to [float] (round to nearest even). *)
Definition float_of_int (z : Z) : float := binary_normalize prec32 emax32 z 0 false.

(** The integral part of a finite float, fraction discarded. *)
Definition float_trunc (f : float) : option Z :=
  match f with
  | S754_zero _ => Some 0
  | S754_finite s m e =>
      Some (cond_Zopp s (if 0 <=? e then Zpos m * 2 ^ e else Zpos m / 2 ^ (- e)))
  | S754_infinity _ | S754_nan => None
  end.

(** The cast [(s16) f]: truncation toward zero, undefined ([None]) when the
    integral part is not an [s16]. *)
Definition float_to_s16 (f : float) : option Z :=
  match float_trunc f with
  | Some z => if (- 2 ^ 15 <=? z) && (z <? 2 ^ 15) then Some z else None
  | None => None
  end.

(** ** nn_driver.h: fixed-point conversion macros *)

Definition FLOAT_TO_FIXED (x : float) : option Z :=
  float_to_s16 (fmul x (float_of_int NN_SCALE)).

Definition FIXED_TO_FLOAT (x : Z) : float :=
  fdiv (float_of_int x) (float_of_int NN_SCALE).

(** ** nn_driver.c: NN_GetConfidence *)

(** The [for (u16 i = 0; i < num_outputs; i++) sum += ...] loop. *)
Fixpoint NN_GetConfidence_loop (fuel : nat) (outputs : list Z) (num_outputs : Z)
    (i : Z) (sum : float) : option float :=
  match fuel with
  | O => None
  | S fuel' =>
      if i <? num_outputs then
        match load outputs i with
        | None => None
        | Some oi =>
            NN_GetConfidence_loop fuel' outputs num_outputs (to_u16 (i + 1))
              (fadd sum (FIXED_TO_FLOAT oi))
        end
      else Some sum
  end.

Definition NN_GetConfidence (outputs : list Z) (num_outputs : Z) (class_idx : Z)
  : option float :=
  match load outputs class_idx with
  | None => None
  | Some oc =>
      let value := FIXED_TO_FLOAT oc in
      match NN_GetConfidence_loop (S (Z.to_nat num_outputs)) outputs num_outputs 0 fzero with
      | None => None
      | Some sum => if fgt sum fzero then Some (fdiv value sum) else Some value
      end
  end.

(** ** The exact value of a float, as a rational *)

Definition SF2Q (f : float) : Q :=
  match f with
  | S754_finite s m e =>
      if 0 <=? e then inject_Z (cond_Zopp s (Zpos m * 2 ^ e))
      else Qmake (cond_Zopp s (Zpos m)) (Z.to_pos (2 ^ (- e)))
  | _ => 0%Q
  end.

Definition is_finite (f : float) : bool :=
  match f with
  | S754_zero _ | S754_finite _ _ _ => true
  | _ => false
  end.

(** A float is a binary32 when its mantissa and exponent are canonical. *)
Definition is_binary32 (f : float) : bool := valid_binary prec32 emax32 f.

(** ** Vocabulary for the polling protocol *)

(** The deadline test of [NN_WaitDone]: [timeout_us > 0 && elapsed >= timeout_us]. *)
Definition timed_out (timeout_us elapsed : Z) : bool :=
  (0 <? timeout_us) && (timeout_us <=? elapsed).

(** The [u32] variable [elapsed] after [k] more poll cycles. *)
Fixpoint elapsed_after (k : nat) (elapsed : Z) : Z :=
  match k with
  | O => elapsed
  | S k' => elapsed_after k' (to_u32 (elapsed + 100))
  end.

Section Polling.

Variable dev : device.

(** One poll cycle that saw DONE clear: a status load, then the sleep. *)
Definition poll_once (w : world) : world :=
  run (NN_IsDone dev ;;; usleep poll_interval) w.

(** The world after [k] such cycles. *)
Fixpoint polls (k : nat) (w : world) : world :=
  match k with
  | O => w
  | S k' => polls k' (poll_once w)
  end.

(** Whether the status load of cycle [k] (counted from 0) shows DONE. *)
Definition done_at (w : world) (k : nat) : bool :=
  negb (fst (NN_IsDone dev (polls k w)) =? 0).

(** The first [k] cycles neither saw DONE nor reached the deadline. *)
Definition still_polling (timeout_us elapsed : Z) (w : world) (k : nat) : Prop :=
  forall j, (j < k)%nat ->
    done_at w j = false /\ timed_out timeout_us (elapsed_after j elapsed) = false.

(** The world in which [NN_RunInference] starts to wait. *)
Definition inference_started (w : world) : world :=
  run (NN_Start dev)
      (if initialized (g_config w) =? 0 then run (NN_Init None) w else w).

End Polling.

(** Microseconds slept on a trace. *)
Fixpoint slept (t : list event) : Z :=
  match t with
  | [] => 0
  | EvSleep us :: t' => us + slept t'
  | _ :: t' => slept t'
  end.

(** The bus traffic of [NN_Init] for the topology of [c]. *)
Definition init_sequence (c : NN_Config) : list event :=
  [ EvWrite (NN_BASEADDR + NN_REG_CTRL) NN_CTRL_SOFT_RESET; EvSleep 10;
    EvWrite (NN_BASEADDR + NN_REG_CTRL) 0; EvSleep 10;
    EvWrite (NN_BASEADDR + NN_REG_NUM_IN)  (num_inputs c);
    EvWrite (NN_BASEADDR + NN_REG_NUM_H1)  (num_hidden1 c);
    EvWrite (NN_BASEADDR + NN_REG_NUM_H2)  (num_hidden2 c);
    EvWrite (NN_BASEADDR + NN_REG_NUM_OUT) (num_outputs c) ].

Definition topology (c : NN_Config) : Z * Z * Z * Z :=
  (num_inputs c, num_hidden1 c, num_hidden2 c, num_outputs c).

Definition set_initialized (c : NN_Config) : NN_Config :=
  {| base_addr   := base_addr c;
     num_inputs  := num_inputs c;
     num_hidden1 := num_hidden1 c;
     num_hidden2 := num_hidden2 c;
     num_outputs := num_outputs c;
     initialized := 1 |}.

(** ** Vocabulary for the interpreter *)

(** [idx] is the first index of a maximum of the first [n] elements. *)
Definition first_argmax (outputs : list Z) (n idx : Z) : Prop :=
  0 <= idx < n /\
  exists m, load outputs idx = Some m /\
    (forall j v, 0 <= j < n -> load outputs j = Some v -> v <= m) /\
    (forall j v, 0 <= j < idx -> load outputs j = Some v -> v < m).

(** The state of the arg-max scan before it looks at index [i]. *)
Definition scanned (outputs : list Z) (i max_val max_idx : Z) : Prop :=
  0 <= max_idx < i /\
  load outputs max_idx = Some max_val /\
  (forall j v, 0 <= j < i -> load outputs j = Some v -> v <= max_val) /\
  (forall j v, 0 <= j < max_idx -> load outputs j = Some v -> v < max_val).

(** The sum of the float conversions of the samples, accumulated in index
    order from [0.0f] as binary32 additions. *)
Definition float_sum (samples : list Z) : float :=
  fold_left (fun sum x => fadd sum (FIXED_TO_FLOAT x)) samples fzero.



(** The binary32 nearest to [t]/2048. *)
Definition fixed (t : Z) : float := binary_normalize prec32 emax32 t (-11) false.

(** ** Some devices *)

(** STATUS never shows DONE. *)
Definition dev_never_done : device := fun _ _ => 0.

(** STATUS always shows DONE. *)
Definition dev_always_done : device := fun _ _ => NN_STAT_DONE.

Definition is_status_read (e : event) : bool :=
  match e with
  | EvRead a _ => a =? NN_BASEADDR + NN_REG_STATUS
  | _ => false
  end.

(** BUSY for the first [n] status loads, DONE from then on. *)
Definition dev_done_after (n : nat) : device :=
  fun t _ => if (n <=? length (filter is_status_read t))%nat
             then NN_STAT_DONE else NN_STAT_BUSY.

(** ** Some inputs *)


(** The state after [NN_Configure(100, 8, 8, 4)] on the initial state, not
    yet initialised. *)
Definition configured_world : world := run (NN_Configure 100 8 8 4) world_init.

(** ** Vocabulary for the register map *)

(** The accesses the register table of the header allows: loads of CTRL and
    STATUS, stores to CTRL and to the four topology registers. *)
Definition reg_access_ok (e : event) : bool :=
  match e with
  | EvRead a _ =>
      (a =? NN_BASEADDR + NN_REG_CTRL) || (a =? NN_BASEADDR + NN_REG_STATUS)
  | EvWrite a _ =>
      (a =? NN_BASEADDR + NN_REG_CTRL) || (a =? NN_BASEADDR + NN_REG_NUM_IN) ||
      (a =? NN_BASEADDR + NN_REG_NUM_H1) || (a =? NN_BASEADDR + NN_REG_NUM_H2) ||
      (a =? NN_BASEADDR + NN_REG_NUM_OUT)
  | EvSleep _ => true
  end.

(** What a poll loop puts on the bus: status loads and sleeps of 100us. *)
Definition poll_event (e : event) : bool :=
  match e with
  | EvRead a _ => a =? NN_BASEADDR + NN_REG_STATUS
  | EvWrite _ _ => false
  | EvSleep us => us =? 100
  end.

(** ** main.c: the demo application

    The console ([xil_printf]) and the platform calls ([init_platform],
    [cleanup_platform], [Xil_DCacheFlush], [get_test_image], whose result is
    not used) are outside the world of the driver: they touch neither the
    held configuration nor the accelerator's registers. What the demo prints
    about a test is kept as a value. *)

Definition NUM_TESTS  : Z := 10.
Definition TIMEOUT_US : Z := 5000000.

(** The literals [0.9f] and [0.1f] as binary32. *)
Definition f_0_9 : float := S754_finite false 15099494 (-24).
Definition f_0_1 : float := S754_finite false 13421773 (-27).

(** An array store; outside the array it is undefined ([None]). *)
Definition store (a : list Z) (i v : Z) : option (list Z) :=
  if (i <? 0) || (Z.of_nat (length a) <=? i) then None
  else Some (firstn (Z.to_nat i) a ++ v :: skipn (S (Z.to_nat i)) a).

(** The [for (int i = 0; i < 10; i++) outputs[i] = ...] loop of
    [run_single_test]. *)
Fixpoint fill_outputs (fuel : nat) (digit i : Z) (outputs : list Z)
  : option (list Z) :=
  match fuel with
  | O => None
  | S fuel' =>
      if i <? 10 then
        match (if i =? digit then FLOAT_TO_FIXED f_0_9 else FLOAT_TO_FIXED f_0_1) with
        | None => None
        | Some v =>
            match store outputs i v with
            | None => None
            | Some outputs' => fill_outputs fuel' digit (i + 1) outputs'
            end
        end
      else Some outputs
  end.

(** What the demo reports about one test. *)
Inductive verdict : Type :=
| TIMEOUT
| PASS (predicted : Z) (confidence : float)
| FAIL (expected predicted : Z) (confidence : float).

(** The status line of [print_results]. *)
Inductive rating : Type := EXCELLENT | GOOD | FAIR | NEEDS_IMPROVEMENT.

(** [print_results]: the accuracy it prints and the rating it chooses.
    [correct * 100] is an [int] product and the division is the C one;
    overflow and [total = 0] are undefined ([None]). *)
Definition print_results (correct total : Z) : option (Z * rating) :=
  let p := correct * 100 in
  if (p <? - 2 ^ 31) || (2 ^ 31 <=? p) || (total =? 0) then None
  else
    let accuracy := Z.quot p total in
    Some (accuracy,
          if 90 <=? accuracy then EXCELLENT
          else if 70 <=? accuracy then GOOD
          else if 50 <=? accuracy then FAIR
          else NEEDS_IMPROVEMENT).

Section Demo.

Variable dev : device.

(** [run_single_test]: the value returned and the [outputs] array after the
    call. [fuel] bounds the poll cycles of the wait. *)
Definition run_single_test (fuel : nat) (digit : Z) (outputs : list Z) (w : world)
  : option (Z * list Z * world) :=
  let (_, w1) := NN_Start dev w in
  match NN_WaitDone dev fuel TIMEOUT_US w1 with
  | None => None
  | Some (r, w2) =>
      if r <? 0 then Some (-1, outputs, w2)
      else
        match fill_outputs 11 digit 0 outputs with
        | None => None
        | Some outputs' => Some (0, outputs', w2)
        end
  end.

(** The [for (int digit = 0; digit < NUM_TESTS; digit++)] loop of [main]:
    [tests] bounds the iterations; the result is the final [correct], the
    [outputs] array, the verdicts printed so far and the world. *)
Fixpoint main_loop (tests fuel : nat) (digit correct : Z) (outputs : list Z)
    (printed : list verdict) (w : world)
  : option (Z * list Z * list verdict * world) :=
  match tests with
  | O => None
  | S tests' =>
      if digit <? NUM_TESTS then
        match run_single_test fuel digit outputs w with
        | None => None
        | Some (r, outputs1, w1) =>
            if r <? 0 then
              (* "TIMEOUT", continue *)
              main_loop tests' fuel (digit + 1) correct outputs1
                        (printed ++ [TIMEOUT]) w1
            else
              match NN_Classify outputs1 10 with
              | None => None
              | Some predicted =>
                  match NN_GetConfidence outputs1 10 predicted with
                  | None => None
                  | Some confidence =>
                      let (_, w2) := NN_Reset w1 in
                      if predicted =? digit then
                        main_loop tests' fuel (digit + 1) (correct + 1) outputs1
                                  (printed ++ [PASS predicted confidence]) w2
                      else
                        main_loop tests' fuel (digit + 1) correct outputs1
                                  (printed ++ [FAIL digit predicted confidence]) w2
                  end
              end
        end
      else Some (correct, outputs, printed, w)
  end.

(** [main]: [outputs] is the uninitialised local array. The result is the
    value returned, the report (the status read after initialisation, the
    verdicts, what [print_results] shows; no report on the [goto cleanup]
    path) and the world. *)
Definition main (fuel : nat) (outputs : list Z) (w : world)
  : option (Z * option (NN_Status * list verdict * (Z * rating)) * world) :=
  let (r, w1) := NN_Init None w in
  if r <? 0 then Some (0, None, w1)   (* goto cleanup *)
  else
    let (status, w2) := NN_GetStatus dev w1 in
    match main_loop 11 fuel 0 0 outputs [] w2 with
    | None => None
    | Some (correct, _, printed, w3) =>
        match print_results correct NUM_TESTS with
        | None => None
        | Some shown => Some (0, Some (status, printed, shown), w3)
        end
    end.

End Demo.

(** ** Vocabulary for the further properties *)

(** [w'] is [w] with more events on the bus, all of them allowed by [ok]. *)
Definition only_adds (ok : event -> bool) (w w' : world) : Prop :=
  exists evs, trace w' = trace w ++ evs /\ forallb ok evs = true.

(** The integer part of [m * 2^(e+11)]. *)
Definition scaled_trunc (m : positive) (e : Z) : Z :=
  if 0 <=? e + 11 then Zpos m * 2 ^ (e + 11) else Zpos m / 2 ^ (- e - 11).

(** The array [run_single_test] fabricates for [digit]. *)
Definition placeholder_outputs (digit : Z) : list Z :=
  map (fun i => if i =? digit then 1843 else 204) [0; 1; 2; 3; 4; 5; 6; 7; 8; 9].

Definition is_pass (v : verdict) : bool :=
  match v with PASS _ _ => true | _ => false end.

Definition is_fail (v : verdict) : bool :=
  match v with FAIL _ _ _ => true | _ => false end.

(** The confidence the demo computes on a fabricated array: 1843/3679. *)
Definition demo_confidence : float := S754_finite false 8404569 (-24).

(** The verdicts of tests [digit], [digit + 1], ... are time-outs or passes
    with the digit of the test. *)
Fixpoint verdicts_from (digit : Z) (vs : list verdict) : Prop :=
  match vs with
  | [] => True
  | v :: vs' => (v = TIMEOUT \/ v = PASS digit demo_confidence) /\
                verdicts_from (digit + 1) vs'
  end.

(** The number of passes among the verdicts. *)
Definition passes (vs : list verdict) : Z := Z.of_nat (length (filter is_pass vs)).

(** * Properties *)

(** ** Initialisation and configuration *)

Section InitFacts.

Lemma NN_Init_world (config : option NN_Config) (w : world) :
  run (NN_Init config) w =
  let c := match config with Some c => c | None => g_config w end in
  {| g_config := set_initialized c; trace := trace w ++ init_sequence c |}.
Proof.
  destruct config as [c|]; unfold run, NN_Init, NN_Reset, NN_Configure, NN_WRITE,
    Xil_Out32, usleep, log, bind, ret, get_config, set_config; simpl;
    rewrite <- !app_assoc; reflexivity.
Qed.

(** C8. [NN_Init] returns 0 whatever its argument ([NULL] or a
    configuration) and whatever the state it is called in: the failure
    value -1 of its interface is never produced. *)
Theorem NN_Init_returns_0 (config : option NN_Config) (w : world) :
  fst (NN_Init config w) = 0 /\ fst (NN_Init config w) <> -1.
Proof.
  destruct config; split; simpl; first [reflexivity | discriminate].
Qed.

(** C9. [NN_Configure] writes the four topology fields of the held
    configuration and nothing else of it: [base_addr] and [initialized]
    are as before the call. *)
Theorem NN_Configure_frame (num_in num_h1 num_h2 num_out : Z) (w : world) :
  let w' := run (NN_Configure num_in num_h1 num_h2 num_out) w in
  base_addr (g_config w') = base_addr (g_config w) /\
  initialized (g_config w') = initialized (g_config w) /\
  topology (g_config w') = (num_in, num_h1, num_h2, num_out).
Proof.
  repeat split.
Qed.

(** C5. [NN_Init(NULL)] twice in a row: the topology is the same before,
    between and after the calls, the initialized flag is 1 after each, and
    the second call leaves the held configuration as the first left it.
    Every call, with or without a configuration, puts on the bus the reset
    sequence and then the four topology writes, and ends with the held
    configuration (the supplied one when there is one) marked initialized. *)
Theorem NN_Init_idempotent (w : world) :
  let w1 := run (NN_Init None) w in
  let w2 := run (NN_Init None) w1 in
  (topology (g_config w1) = topology (g_config w) /\
   topology (g_config w2) = topology (g_config w) /\
   initialized (g_config w1) = 1 /\
   initialized (g_config w2) = 1 /\
   g_config w2 = g_config w1) /\
  (forall w0, trace (run (NN_Init None) w0) = trace w0 ++ init_sequence (g_config w0) /\
              g_config (run (NN_Init None) w0) = set_initialized (g_config w0)) /\
  (forall c w0, trace (run (NN_Init (Some c)) w0) = trace w0 ++ init_sequence c /\
                g_config (run (NN_Init (Some c)) w0) = set_initialized c).
Proof.
  cbv zeta. split; [| split; intros; rewrite NN_Init_world; split; reflexivity].
  rewrite !NN_Init_world. repeat split.
Qed.

End InitFacts.

(** ** Waiting for completion *)

Lemma slept_app (t u : list event) : slept (t ++ u) = slept t + slept u.
Proof.
  induction t as [|[a v|a v|us] t IH]; simpl; rewrite ?IH; lia.
Qed.

Lemma elapsed_after_in_range (k : nat) (e : Z) :
  0 <= e -> e + 100 * Z.of_nat k < 2 ^ 32 -> elapsed_after k e = e + 100 * Z.of_nat k.
Proof.
  revert e. induction k as [|k IH]; intros e He Hk; simpl elapsed_after.
  - lia.
  - unfold to_u32. rewrite Z.mod_small by lia. rewrite IH; lia.
Qed.

Lemma elapsed_after_mod4 (k : nat) (e : Z) :
  e mod 4 = 0 -> 0 <= e < 2 ^ 32 ->
  elapsed_after k e mod 4 = 0 /\ 0 <= elapsed_after k e < 2 ^ 32.
Proof.
  revert e. induction k as [|k IH]; intros e He Hr; simpl elapsed_after.
  - auto.
  - apply IH.
    + unfold to_u32. rewrite Z.mod_mod_divide by (exists 1073741824; reflexivity).
      rewrite Z.add_mod by lia. rewrite He. reflexivity.
    + unfold to_u32. apply Z.mod_pos_bound. lia.
Qed.

Section WaitFacts.

Variable dev : device.

Lemma NN_WaitDone_loop_S (fuel : nat) (t e : Z) (w : world) :
  NN_WaitDone_loop dev (S fuel) t e w =
  if done_at dev w 0 then Some (0, run (NN_IsDone dev) w)
  else if timed_out t e then Some (-1, run (NN_IsDone dev) w)
  else NN_WaitDone_loop dev fuel t (to_u32 (e + 100)) (poll_once dev w).
Proof.
  unfold done_at, poll_once, timed_out, run, bind.
  cbn [polls NN_WaitDone_loop].
  destruct (NN_IsDone dev w) as [d w1]. cbn [fst snd].
  destruct (d =? 0); reflexivity.
Qed.

Lemma still_polling_S (t e : Z) (w : world) (k : nat) :
  still_polling dev t e w (S k) <->
  done_at dev w 0 = false /\ timed_out t e = false /\
  still_polling dev t (to_u32 (e + 100)) (poll_once dev w) k.
Proof.
  unfold still_polling. split.
  - intros H. repeat split.
    + apply (H 0%nat). lia.
    + apply (H 0%nat). lia.
    + apply (H (S j)). lia.
    + apply (H (S j)). lia.
  - intros (H0 & H1 & H) [|j] Hj; [auto|]. apply (H j). lia.
Qed.

Lemma NN_WaitDone_loop_done (k : nat) : forall fuel t e w,
  still_polling dev t e w k -> done_at dev w k = true -> (k < fuel)%nat ->
  NN_WaitDone_loop dev fuel t e w = Some (0, run (NN_IsDone dev) (polls dev k w)).
Proof.
  induction k as [|k IH]; intros [|fuel] t e w Hq Hd Hf; try lia;
    rewrite NN_WaitDone_loop_S.
  - rewrite Hd. reflexivity.
  - apply still_polling_S in Hq. destruct Hq as (H0 & H1 & Hq).
    rewrite H0, H1. apply IH; [assumption | exact Hd | lia].
Qed.

Lemma NN_WaitDone_loop_timeout (k : nat) : forall fuel t e w,
  still_polling dev t e w k -> done_at dev w k = false ->
  timed_out t (elapsed_after k e) = true -> (k < fuel)%nat ->
  NN_WaitDone_loop dev fuel t e w = Some (-1, run (NN_IsDone dev) (polls dev k w)).
Proof.
  induction k as [|k IH]; intros [|fuel] t e w Hq Hd Ht Hf; try lia;
    rewrite NN_WaitDone_loop_S.
  - rewrite Hd. simpl in Ht. rewrite Ht. reflexivity.
  - apply still_polling_S in Hq. destruct Hq as (H0 & H1 & Hq).
    rewrite H0, H1. apply IH; [assumption | exact Hd | exact Ht | lia].
Qed.

Lemma NN_WaitDone_loop_running (fuel : nat) : forall t e w,
  still_polling dev t e w fuel -> NN_WaitDone_loop dev fuel t e w = None.
Proof.
  induction fuel as [|fuel IH]; intros t e w Hq; [reflexivity|].
  rewrite NN_WaitDone_loop_S.
  apply still_polling_S in Hq. destruct Hq as (H0 & H1 & Hq).
  rewrite H0, H1. apply IH. assumption.
Qed.

(** What a result of the loop says about the cycles that were run. *)
Lemma NN_WaitDone_loop_result (fuel : nat) : forall t e w r w',
  NN_WaitDone_loop dev fuel t e w = Some (r, w') ->
  exists k, (k < fuel)%nat /\ still_polling dev t e w k /\
    w' = run (NN_IsDone dev) (polls dev k w) /\
    ((r = 0 /\ done_at dev w k = true) \/
     (r = -1 /\ done_at dev w k = false /\ timed_out t (elapsed_after k e) = true)).
Proof.
  induction fuel as [|fuel IH]; intros t e w r w' H; [discriminate|].
  rewrite NN_WaitDone_loop_S in H.
  destruct (done_at dev w 0) eqn:Hd; [|destruct (timed_out t e) eqn:Ht].
  - injection H as <- <-. exists 0%nat.
    split; [lia | split; [intros j Hj; lia | split; [reflexivity | left; auto]]].
  - injection H as <- <-. exists 0%nat.
    split; [lia | split; [intros j Hj; lia | split; [reflexivity | right; auto]]].
  - apply IH in H. destruct H as (k & Hk & Hq & Hw & Hr).
    exists (S k).
    split; [lia | split; [apply still_polling_S; auto | split; [exact Hw | exact Hr]]].
Qed.

Lemma trace_poll_once (w : world) :
  exists v, trace (poll_once dev w) =
            trace w ++ [EvRead (NN_BASEADDR + NN_REG_STATUS) v; EvSleep 100].
Proof.
  eexists. cbv beta iota zeta delta [poll_once run bind NN_IsDone NN_READ
    Xil_In32 usleep log ret poll_interval snd].
  cbn [trace]. rewrite <- app_assoc. reflexivity.
Qed.

Lemma slept_polls (k : nat) : forall w,
  slept (trace (polls dev k w)) = slept (trace w) + 100 * Z.of_nat k.
Proof.
  induction k as [|k IH]; intros w.
  - simpl. lia.
  - cbn [polls]. rewrite IH. destruct (trace_poll_once w) as [v ->].
    rewrite slept_app, Nat2Z.inj_succ. cbn [slept]. lia.
Qed.

Lemma slept_IsDone (w : world) :
  slept (trace (run (NN_IsDone dev) w)) = slept (trace w).
Proof.
  cbv beta iota zeta delta [run bind NN_IsDone NN_READ Xil_In32 ret snd].
  cbn [trace]. rewrite slept_app. cbn [slept]. lia.
Qed.

(** Polling leaves the held configuration alone. *)
Lemma g_config_polls (k : nat) : forall w,
  g_config (run (NN_IsDone dev) (polls dev k w)) = g_config w.
Proof.
  induction k as [|k IH]; intros w; [reflexivity|].
  cbn [polls]. rewrite IH. reflexivity.
Qed.

(** With a deadline that the [u32] counter can reach in steps of 100, a
    device that does not show DONE up to the deadline gets the timeout at
    the first cycle whose elapsed time is at least [timeout_us]. *)
Lemma NN_WaitDone_times_out (timeout_us : Z) (w : world) (fuel : nat) :
  0 < timeout_us <= 4294967200 ->
  let k := Z.to_nat ((timeout_us + 99) / 100) in
  (forall j, (j <= k)%nat -> done_at dev w j = false) ->
  (k < fuel)%nat ->
  NN_WaitDone dev fuel timeout_us w = Some (-1, run (NN_IsDone dev) (polls dev k w)) /\
  slept (trace (run (NN_IsDone dev) (polls dev k w)))
    = slept (trace w) + 100 * ((timeout_us + 99) / 100).
Proof.
  intros Ht k Hd Hf.
  assert (Hk : 100 * Z.of_nat k - 99 <= timeout_us <= 100 * Z.of_nat k).
  { unfold k. rewrite Z2Nat.id by (apply Z.div_pos; lia).
    pose proof (Z.div_mod (timeout_us + 99) 100 ltac:(lia)).
    pose proof (Z.mod_pos_bound (timeout_us + 99) 100 ltac:(lia)). lia. }
  split.
  - apply NN_WaitDone_loop_timeout; try assumption.
    + intros j Hj. split; [apply Hd; lia|].
      rewrite elapsed_after_in_range by lia.
      unfold timed_out. apply andb_false_iff. right. apply Z.leb_gt. lia.
    + apply Hd. lia.
    + rewrite elapsed_after_in_range by lia.
      unfold timed_out. apply andb_true_iff. split; [apply Z.ltb_lt | apply Z.leb_le]; lia.
  - rewrite slept_IsDone, slept_polls. unfold k.
    rewrite Z2Nat.id by (apply Z.div_pos; lia). reflexivity.
Qed.

End WaitFacts.

Lemma never_done_at (w : world) (j : nat) : done_at dev_never_done w j = false.
Proof. reflexivity. Qed.

Lemma always_done_at (w : world) (j : nat) : done_at dev_always_done w j = true.
Proof. reflexivity. Qed.

(** C2, at the largest [u32] deadline. Against a device that never shows
    DONE, [NN_WaitDone(4294967295)] is still polling after any number of
    cycles: [elapsed] steps by 100 modulo 2^32, so it stays a multiple of 4
    below 2^32 and is never at least 4294967295, although 42949673 cycles
    already accumulate 4294967300 microseconds. *)
Theorem NN_WaitDone_u32_max_never_times_out (fuel : nat) (w : world) :
  NN_WaitDone dev_never_done fuel 4294967295 w = None /\
  4294967295 <= 100 * 42949673.
Proof.
  split; [|lia].
  apply NN_WaitDone_loop_running. intros j Hj. split.
  - apply never_done_at.
  - destruct (elapsed_after_mod4 j 0) as [Hm Hr]; [reflexivity | lia |].
    unfold timed_out. apply andb_false_iff. right. apply Z.leb_gt.
    assert (elapsed_after j 0 <> 4294967293) by (intros E; rewrite E in Hm; discriminate).
    assert (elapsed_after j 0 <> 4294967294) by (intros E; rewrite E in Hm; discriminate).
    assert (elapsed_after j 0 <> 4294967295) by (intros E; rewrite E in Hm; discriminate).
    lia.
Qed.

Section WaitClaims.

Variable dev : device.

(** C3. With [timeout_us = 0] the deadline test is off. Whatever result
    [NN_WaitDone(0)] gives is 0, given in the first cycle that saw DONE;
    if DONE first shows in cycle [k], however many cycles of 100us that
    takes, the call returns 0 there; and as long as DONE does not show the
    loop keeps polling. *)
Theorem NN_WaitDone_zero_waits_forever (w : world) :
  (forall fuel r w', NN_WaitDone dev fuel 0 w = Some (r, w') ->
     r = 0 /\ exists k, (k < fuel)%nat /\ done_at dev w k = true /\
                (forall j, (j < k)%nat -> done_at dev w j = false) /\
                w' = run (NN_IsDone dev) (polls dev k w)) /\
  (forall k fuel, (forall j, (j < k)%nat -> done_at dev w j = false) ->
     done_at dev w k = true -> (k < fuel)%nat ->
     NN_WaitDone dev fuel 0 w = Some (0, run (NN_IsDone dev) (polls dev k w)) /\
     slept (trace (run (NN_IsDone dev) (polls dev k w)))
       = slept (trace w) + 100 * Z.of_nat k) /\
  (forall fuel, (forall j, (j < fuel)%nat -> done_at dev w j = false) ->
     NN_WaitDone dev fuel 0 w = None).
Proof.
  split; [|split].
  - intros fuel r w' H. apply NN_WaitDone_loop_result in H.
    destruct H as (k & Hk & Hq & Hw & [[-> Hd] | (_ & _ & Ht)]).
    + split; [reflexivity|]. exists k. repeat split; auto.
      intros j Hj. apply (Hq j Hj).
    + discriminate Ht.
  - intros k fuel Hq Hd Hf. split.
    + apply NN_WaitDone_loop_done; auto.
      intros j Hj. split; [auto | reflexivity].
    + rewrite slept_IsDone, slept_polls. reflexivity.
  - intros fuel Hq. apply NN_WaitDone_loop_running.
    intros j Hj. split; [auto | reflexivity].
Qed.

(** C10. [NN_WaitDone] gives 0 or -1 and nothing else. DONE is tested
    before the deadline in every cycle: when the first status load shows
    DONE the call returns 0 after that single load, with no sleep, for
    every [timeout_us]; and a cycle that sees DONE returns 0 even when the
    deadline test would hold in that cycle. *)
Theorem NN_WaitDone_done_before_deadline (timeout_us : Z) (w : world) :
  (forall fuel r w', NN_WaitDone dev fuel timeout_us w = Some (r, w') ->
     r = 0 \/ r = -1) /\
  (done_at dev w 0 = true ->
     forall fuel, NN_WaitDone dev (S fuel) timeout_us w = Some (0, run (NN_IsDone dev) w) /\
                  exists v, trace (run (NN_IsDone dev) w)
                            = trace w ++ [EvRead (NN_BASEADDR + NN_REG_STATUS) v]) /\
  (forall k fuel, still_polling dev timeout_us 0 w k ->
     done_at dev w k = true ->
     timed_out timeout_us (elapsed_after k 0) = true ->
     (k < fuel)%nat ->
     NN_WaitDone dev fuel timeout_us w = Some (0, run (NN_IsDone dev) (polls dev k w))).
Proof.
  split; [|split].
  - intros fuel r w' H. apply NN_WaitDone_loop_result in H.
    destruct H as (k & _ & _ & _ & [[-> _] | (-> & _)]); auto.
  - intros Hd fuel. split.
    + apply (NN_WaitDone_loop_done dev 0); [intros j Hj; lia | exact Hd | lia].
    + eexists. reflexivity.
  - intros k fuel Hq Hd _ Hf. apply NN_WaitDone_loop_done; assumption.
Qed.

Lemma NN_WaitDone_loop_None (fuel : nat) : forall t e w,
  NN_WaitDone_loop dev fuel t e w = None -> still_polling dev t e w fuel.
Proof.
  induction fuel as [|fuel IH]; intros t e w H.
  - intros j Hj. lia.
  - rewrite NN_WaitDone_loop_S in H. apply still_polling_S.
    destruct (done_at dev w 0); [discriminate|].
    destruct (timed_out t e); [discriminate|]. auto.
Qed.

Lemma NN_RunInference_unfold (fuel : nat) (w : world) :
  NN_RunInference dev fuel w =
  match NN_WaitDone dev fuel 10000000 (inference_started dev w) with
  | None => None
  | Some (r, w3) => if r <? 0 then Some (-1, w3) else Some (0, w3)
  end.
Proof.
  unfold NN_RunInference, inference_started, run, bind, get_config.
  destruct (initialized (g_config w) =? 0).
  - destruct (NN_Init None w) as [z w1]. cbn [snd ret].
    destruct (NN_Start dev w1) as [u w2]. reflexivity.
  - cbn [snd ret]. destruct (NN_Start dev w) as [u w2]. reflexivity.
Qed.

(** The ten-second wait ends within 100001 cycles, in the world the polls
    leave. *)
Lemma NN_WaitDone_10s_world (fuel : nat) (w : world) :
  100000 < Z.of_nat fuel ->
  exists rw w3 k,
    NN_WaitDone dev fuel 10000000 w = Some (rw, w3) /\
    Z.of_nat k <= 100000 /\
    (forall j, (j < k)%nat -> done_at dev w j = false) /\
    ((rw = 0 /\ done_at dev w k = true) \/
     (rw = -1 /\ done_at dev w k = false /\ Z.of_nat k = 100000)) /\
    w3 = run (NN_IsDone dev) (polls dev k w).
Proof.
  intros Hf.
  assert (Hdead : forall k, still_polling dev 10000000 0 w k -> Z.of_nat k <= 100000).
  { intros k Hq. destruct (Z_le_gt_dec (Z.of_nat k) 100000) as [|Hgt]; [assumption|].
    destruct (Hq (Z.to_nat 100000)) as [_ Ht]; [lia|].
    rewrite elapsed_after_in_range in Ht by lia.
    rewrite Z2Nat.id in Ht by lia. discriminate Ht. }
  destruct (NN_WaitDone dev fuel 10000000 w) as [[rw w3]|] eqn:E.
  - apply NN_WaitDone_loop_result in E.
    destruct E as (k & Hk & Hq & Hw & Hr).
    exists rw, w3, k. split; [reflexivity|].
    pose proof (Hdead k Hq) as Hle.
    split; [exact Hle|]. split; [intros j Hj; apply (Hq j Hj)|].
    split; [|exact Hw].
    destruct Hr as [[-> Hd] | (-> & Hd & Ht)]; [left; auto | right].
    repeat split; auto.
    rewrite elapsed_after_in_range in Ht by lia.
    unfold timed_out in Ht. apply andb_true_iff in Ht. destruct Ht as [_ Ht].
    apply Z.leb_le in Ht. lia.
  - apply NN_WaitDone_loop_None in E. apply Hdead in E. lia.
Qed.

(** The ten-second wait ends within 100001 cycles. *)
Lemma NN_WaitDone_10s (fuel : nat) (w : world) :
  100000 < Z.of_nat fuel ->
  exists rw w3 k,
    NN_WaitDone dev fuel 10000000 w = Some (rw, w3) /\
    Z.of_nat k <= 100000 /\
    (forall j, (j < k)%nat -> done_at dev w j = false) /\
    ((rw = 0 /\ done_at dev w k = true) \/
     (rw = -1 /\ done_at dev w k = false /\ Z.of_nat k = 100000)).
Proof.
  intros Hf.
  destruct (NN_WaitDone_10s_world fuel w Hf) as (rw & w3 & k & E & Hk & Hq & Hr & _).
  exists rw, w3, k. auto.
Qed.

(** C6. [NN_RunInference] runs [NN_Init(NULL)] exactly when the held
    configuration is not marked initialized: the reset pulse, then the
    topology the configuration holds stored to the four registers (the
    defaults when the configuration is still the initial one), and the
    configuration marked initialized. Then [NN_Start]: one load of CTRL and
    one store of the value read with ENABLE and START set. Then
    [NN_WaitDone(10000000)]: status loads 100us apart. Given the 100001 poll
    cycles this wait can take, it returns: -1 when the wait gave -1, which
    is when none of the cycles 0..100000 saw DONE, and 0 otherwise. The held
    topology is the one it was called with. *)
Theorem NN_RunInference_spec (fuel : nat) (w : world) :
  100000 < Z.of_nat fuel ->
  let w1 := if initialized (g_config w) =? 0 then run (NN_Init None) w else w in
  let w2 := run (NN_Start dev) w1 in
  exists r rw w3,
    NN_RunInference dev fuel w = Some (r, w3) /\
    NN_WaitDone dev fuel 10000000 w2 = Some (rw, w3) /\
    (rw < 0 -> r = -1) /\ (~ rw < 0 -> r = 0) /\
    (r = -1 <-> forall j, Z.of_nat j <= 100000 -> done_at dev w2 j = false) /\
    (r = 0 <-> exists j, Z.of_nat j <= 100000 /\ done_at dev w2 j = true) /\
    (initialized (g_config w) = 0 ->
       trace w1 = trace w ++ init_sequence (g_config w) /\
       g_config w1 = set_initialized (g_config w)) /\
    (g_config w = g_config_init ->
       trace w1 = trace w ++ init_sequence g_config_init /\
       topology (g_config w1) = topology g_config_init) /\
    (initialized (g_config w) <> 0 -> w1 = w) /\
    (let v := to_u32 (dev (trace w1) (NN_BASEADDR + NN_REG_CTRL)) in
     trace w2 = trace w1 ++ [EvRead (NN_BASEADDR + NN_REG_CTRL) v;
                             EvWrite (NN_BASEADDR + NN_REG_CTRL)
                                     (Z.lor v (Z.lor NN_CTRL_ENABLE NN_CTRL_START))]) /\
    g_config w2 = g_config w1 /\
    (exists k, Z.of_nat k <= 100000 /\
       (forall j, (j < k)%nat -> done_at dev w2 j = false) /\
       w3 = run (NN_IsDone dev) (polls dev k w2) /\
       slept (trace w3) = slept (trace w2) + 100 * Z.of_nat k) /\
    g_config w3 = g_config w1 /\
    topology (g_config w3) = topology (g_config w).
Proof.
  intros Hf w1 w2.
  assert (Hw2 : w2 = inference_started dev w) by reflexivity.
  destruct (NN_WaitDone_10s_world fuel w2 Hf)
    as (rw & w3 & k & E & Hk & Hq & Hr & Hw3).
  assert (Hinit : initialized (g_config w) = 0 ->
            trace w1 = trace w ++ init_sequence (g_config w) /\
            g_config w1 = set_initialized (g_config w)).
  { intros Hi. unfold w1. rewrite Hi. cbn [Z.eqb]. rewrite NN_Init_world.
    split; reflexivity. }
  assert (Hkeep : initialized (g_config w) <> 0 -> w1 = w).
  { intros Hi. unfold w1.
    destruct (Z.eqb_spec (initialized (g_config w)) 0); [contradiction | reflexivity]. }
  assert (Hg3 : g_config w3 = g_config w1).
  { rewrite Hw3, g_config_polls. reflexivity. }
  assert (Htop : topology (g_config w3) = topology (g_config w)).
  { rewrite Hg3.
    destruct (Z.eq_dec (initialized (g_config w)) 0) as [Hi|Hi];
      [rewrite (proj2 (Hinit Hi)) | rewrite (Hkeep Hi)]; reflexivity. }
  assert (Hres : exists r,
            NN_RunInference dev fuel w = Some (r, w3) /\
            (rw < 0 -> r = -1) /\ (~ rw < 0 -> r = 0) /\
            (r = -1 <-> forall j, Z.of_nat j <= 100000 -> done_at dev w2 j = false) /\
            (r = 0 <-> exists j, Z.of_nat j <= 100000 /\ done_at dev w2 j = true)).
  { rewrite NN_RunInference_unfold, <- Hw2, E.
    destruct Hr as [[-> Hd] | (-> & Hd & Hk')].
    - exists 0. cbn [Z.ltb Z.compare].
      repeat split; try lia; try discriminate.
      + intros Hall. rewrite (Hall k Hk) in Hd. discriminate.
      + exists k. auto.
    - exists (-1). cbn [Z.ltb Z.compare].
      repeat split; try lia; try discriminate.
      + intros _ j Hj. destruct (Nat.eq_dec j k) as [->|Hne]; [exact Hd|].
        apply Hq. lia.
      + intros [j [Hj Hdj]]. exfalso.
        destruct (Nat.eq_dec j k) as [->|Hne]; [congruence|].
        rewrite Hq in Hdj by lia. discriminate. }
  destruct Hres as (r & R1 & R2 & R3 & R4 & R5).
  exists r, rw, w3.
  split; [exact R1|]. split; [exact E|]. split; [exact R2|]. split; [exact R3|].
  split; [exact R4|]. split; [exact R5|]. split; [exact Hinit|].
  split.
  { intros Hc. destruct (Hinit ltac:(rewrite Hc; reflexivity)) as [Ht Hg].
    rewrite Ht, Hg, Hc. split; reflexivity. }
  split; [exact Hkeep|].
  split.
  { cbv zeta. unfold w2, run, NN_Start, NN_READ, NN_WRITE, Xil_In32, Xil_Out32, log, bind.
    cbn [snd trace]. rewrite <- app_assoc. reflexivity. }
  split; [reflexivity|].
  split; [|split; [exact Hg3 | exact Htop]].
  exists k. split; [exact Hk|]. split; [exact Hq|]. split; [exact Hw3|].
  rewrite Hw3, slept_IsDone, slept_polls. reflexivity.
Qed.

End WaitClaims.

(** ** Classification *)

Lemma load_in_bounds (a : list Z) (i : Z) :
  0 <= i < Z.of_nat (length a) -> exists v, load a i = Some v.
Proof.
  intros Hi. unfold load.
  destruct (i <? 0) eqn:E; [apply Z.ltb_lt in E; lia|].
  destruct (nth_error a (Z.to_nat i)) as [v|] eqn:N; [eauto|].
  apply nth_error_None in N. lia.
Qed.

Lemma scanned_step (outputs : list Z) (i mv mi oi : Z) :
  scanned outputs i mv mi -> load outputs i = Some oi ->
  if mv <? oi then scanned outputs (i + 1) oi i
  else scanned outputs (i + 1) mv mi.
Proof.
  intros (Hmi & Hl & Hle & Hlt) Hoi.
  destruct (mv <? oi) eqn:C; [apply Z.ltb_lt in C | apply Z.ltb_ge in C].
  - repeat split; try lia; try assumption.
    + intros j v Hj Hv. destruct (Z.eq_dec j i) as [->|Hne].
      * rewrite Hoi in Hv. injection Hv as <-. lia.
      * specialize (Hle j v ltac:(lia) Hv). lia.
    + intros j v Hj Hv. specialize (Hle j v ltac:(lia) Hv). lia.
  - repeat split; try lia; try assumption.
    intros j v Hj Hv. destruct (Z.eq_dec j i) as [->|Hne].
    + rewrite Hoi in Hv. injection Hv as <-. lia.
    + apply (Hle j v); [lia | assumption].
Qed.

Lemma NN_Classify_loop_spec (outputs : list Z) (n : Z) :
  n <= Z.of_nat (length outputs) -> n < 2 ^ 16 ->
  forall fuel i mv mi,
    1 <= i <= n -> n - i < Z.of_nat fuel ->
    scanned outputs i mv mi ->
    exists idx, NN_Classify_loop fuel outputs n i mv mi = Some idx /\
                first_argmax outputs n idx.
Proof.
  intros Hlen Hn. induction fuel as [|fuel IH]; intros i mv mi Hi Hf Hs; [lia|].
  cbn [NN_Classify_loop].
  destruct (i <? n) eqn:C; [apply Z.ltb_lt in C | apply Z.ltb_ge in C].
  - destruct (load_in_bounds outputs i ltac:(lia)) as [oi Hoi]. rewrite Hoi.
    assert (Hw : to_u16 (i + 1) = i + 1) by (unfold to_u16; apply Z.mod_small; lia).
    rewrite Hw. pose proof (scanned_step outputs i mv mi oi Hs Hoi) as Hs'.
    destruct (mv <? oi); apply IH; try lia; exact Hs'.
  - exists mi. split; [reflexivity|]. assert (i = n) by lia. subst i.
    destruct Hs as (H1 & H2 & H3 & H4). split; [exact H1|]. exists mv. auto.
Qed.

(** C1. For an output vector of [num_outputs >= 1] samples, [NN_Classify]
    returns an index of the vector that holds the maximum and such that
    every earlier sample is strictly smaller: the lowest index attaining
    the maximum. *)
Theorem NN_Classify_first_max (outputs : list Z) (num_outputs : Z) :
  1 <= num_outputs < 2 ^ 16 ->
  num_outputs <= Z.of_nat (length outputs) ->
  exists idx, NN_Classify outputs num_outputs = Some idx /\
              first_argmax outputs num_outputs idx.
Proof.
  intros Hn Hlen. unfold NN_Classify.
  destruct (load_in_bounds outputs 0 ltac:(lia)) as [o0 H0]. rewrite H0.
  apply NN_Classify_loop_spec; try lia.
  split; [lia | split; [exact H0 | split]].
  - intros j v Hj Hv. assert (j = 0) by lia. subst j.
    rewrite H0 in Hv. injection Hv as <-. lia.
  - intros j v Hj. lia.
Qed.

(** ** binary32: rounding that does not round

    Facts about the [SpecFloat] operations at precision 24: an operation
    whose exact result is a normal binary32 returns that binary32. *)

Module Binary32.

Ltac fexp_lia := unfold fexp, emin, prec32, emax32 in *; lia.
Ltac pow2_pos := apply Z.pow_pos_nonneg; lia.

Lemma digits2_pos_bounds (m : positive) :
  2 ^ (Zpos (digits2_pos m) - 1) <= Zpos m < 2 ^ Zpos (digits2_pos m).
Proof.
  induction m as [m IH|m IH|]; cbn [digits2_pos];
    try (rewrite Pos2Z.inj_succ;
         replace (Z.succ (Zpos (digits2_pos m)) - 1)
           with (Z.succ (Zpos (digits2_pos m) - 1)) by lia;
         rewrite !Z.pow_succ_r by lia; lia).
  cbn. lia.
Qed.

(** A positive below [2 ^ k] has at most [k] binary digits. *)
Lemma digits2_pos_le (m : positive) (k : Z) :
  0 <= k -> Zpos m < 2 ^ k -> 1 <= Zpos (digits2_pos m) <= k.
Proof.
  intros Hk Hm. split; [lia|]. pose proof (digits2_pos_bounds m) as Hb.
  destruct (Z_le_gt_dec (Zpos (digits2_pos m)) k) as [|Hgt]; [assumption | exfalso].
  assert (2 ^ k <= 2 ^ (Zpos (digits2_pos m) - 1)) by (apply Z.pow_le_mono_r; lia).
  lia.
Qed.

Lemma Zdigits2_mul_pow2_nat (n : nat) : forall q : positive,
  Zdigits2 (Zpos q * 2 ^ Z.of_nat n) = Zpos (digits2_pos q) + Z.of_nat n.
Proof.
  induction n as [|n IH]; intros q.
  - cbn [Z.of_nat]. rewrite Z.pow_0_r, Z.mul_1_r, Z.add_0_r. reflexivity.
  - rewrite Nat2Z.inj_succ, Z.pow_succ_r by lia.
    replace (Zpos q * (2 * 2 ^ Z.of_nat n)) with (Zpos (q~0) * 2 ^ Z.of_nat n) by lia.
    rewrite IH. cbn [digits2_pos]. lia.
Qed.

Lemma Zdigits2_mul_pow2 (q : positive) (k : Z) :
  0 <= k -> Zdigits2 (Zpos q * 2 ^ k) = Zpos (digits2_pos q) + k.
Proof.
  intros Hk. rewrite <- (Z2Nat.id k Hk). apply Zdigits2_mul_pow2_nat.
Qed.

Lemma iter_pos_nat {A} (f : A -> A) (p : positive) : forall x,
  SpecFloat.iter_pos f p x = Nat.iter (Pos.to_nat p) f x.
Proof.
  induction p as [p IH|p IH|]; intros x; cbn [SpecFloat.iter_pos].
  - rewrite !IH, Pos2Nat.inj_xI.
    replace (S (2 * Pos.to_nat p)) with (Pos.to_nat p + S (Pos.to_nat p))%nat by lia.
    rewrite Nat.iter_add, Nat.iter_succ_r. reflexivity.
  - rewrite !IH, Pos2Nat.inj_xO.
    replace (2 * Pos.to_nat p)%nat with (Pos.to_nat p + Pos.to_nat p)%nat by lia.
    rewrite Nat.iter_add. reflexivity.
  - reflexivity.
Qed.

(** Shifting out [n] zero bits leaves no round or sticky bit. *)
Lemma shr_1_iter_exact (n : nat) : forall q : positive,
  Nat.iter n shr_1 {| shr_m := Zpos q * 2 ^ Z.of_nat n; shr_r := false; shr_s := false |}
  = {| shr_m := Zpos q; shr_r := false; shr_s := false |}.
Proof.
  induction n as [|n IH]; intros q.
  - cbn [Nat.iter Z.of_nat]. rewrite Z.pow_0_r, Z.mul_1_r. reflexivity.
  - rewrite Nat.iter_succ.
    replace (Zpos q * 2 ^ Z.of_nat (S n)) with (Zpos (q~0) * 2 ^ Z.of_nat n).
    + rewrite IH. reflexivity.
    + rewrite Nat2Z.inj_succ, Z.pow_succ_r by lia. lia.
Qed.

(** Rounding a mantissa whose discarded bits are all zero is exact. *)
Lemma binary_round_aux_exact (s : bool) (q : positive) (n : nat) (ex : Z) :
  fexp prec32 emax32 (Zdigits2 (Zpos q * 2 ^ Z.of_nat n) + ex) - ex = Z.of_nat n ->
  ex + Z.of_nat n <= emax32 - prec32 ->
  binary_round_aux prec32 emax32 s (Zpos q * 2 ^ Z.of_nat n) ex loc_Exact
  = S754_finite s q (ex + Z.of_nat n).
Proof.
  intros Hn He. unfold binary_round_aux.
  assert (H1 : shr_fexp prec32 emax32 (Zpos q * 2 ^ Z.of_nat n) ex loc_Exact
               = ({| shr_m := Zpos q; shr_r := false; shr_s := false |}, ex + Z.of_nat n)).
  { unfold shr_fexp. rewrite Hn. cbn [shr_record_of_loc]. unfold shr.
    destruct n as [|n].
    - cbn [Z.of_nat]. rewrite Z.pow_0_r, Z.mul_1_r, Z.add_0_r. reflexivity.
    - pose proof (shr_1_iter_exact (S n) q) as Hq.
      set (r0 := {| shr_m := Zpos q * 2 ^ Z.of_nat (S n); shr_r := false; shr_s := false |}) in *.
      destruct (Z.of_nat (S n)) as [|p|p] eqn:E; try lia.
      rewrite iter_pos_nat.
      replace (Pos.to_nat p) with (S n) by lia. rewrite Hq. reflexivity. }
  rewrite H1. cbn [shr_m loc_of_shr_record round_nearest_even].
  assert (H2 : shr_fexp prec32 emax32 (Zpos q) (ex + Z.of_nat n) loc_Exact
               = ({| shr_m := Zpos q; shr_r := false; shr_s := false |}, ex + Z.of_nat n)).
  { unfold shr_fexp. rewrite Zdigits2_mul_pow2_nat in Hn. cbn [Zdigits2].
    replace (fexp prec32 emax32 (Zpos (digits2_pos q) + (ex + Z.of_nat n)) - (ex + Z.of_nat n))
      with 0; [reflexivity|].
    replace (Zpos (digits2_pos q) + (ex + Z.of_nat n))
      with (Zpos (digits2_pos q) + Z.of_nat n + ex) by lia. lia. }
  rewrite H2. cbn [shr_m].
  apply Z.leb_le in He. rewrite He. reflexivity.
Qed.

Lemma Pos_iter_xO (k p : positive) : Zpos (Pos.iter xO p k) = Zpos p * 2 ^ Zpos k.
Proof.
  induction k as [|k IH] using Pos.peano_ind.
  - cbn [Pos.iter]. rewrite Z.pow_1_r. lia.
  - rewrite Pos.iter_succ, Pos2Z.inj_succ, Z.pow_succ_r by lia.
    rewrite Pos2Z.inj_xO, IH. lia.
Qed.

Lemma shl_align_fst (q : positive) (e e' : Z) :
  e' <= e -> Zpos (fst (shl_align q e e')) = Zpos q * 2 ^ (e - e').
Proof.
  intros H. unfold shl_align.
  destruct (e' - e) as [|k|k] eqn:E; try lia; cbn [fst].
  - replace (e - e') with 0 by lia. lia.
  - rewrite Pos_iter_xO. replace (e - e') with (Zpos k) by lia. reflexivity.
Qed.

Lemma shl_align_snd (q : positive) (e e' : Z) :
  e' <= e -> snd (shl_align q e e') = e'.
Proof.
  intros H. unfold shl_align.
  destruct (e' - e) as [|k|k] eqn:E; try lia; cbn [snd]; lia.
Qed.

Lemma shl_align_id (q : positive) (e e' : Z) :
  e <= e' -> shl_align q e e' = (q, e).
Proof.
  intros H. unfold shl_align.
  destruct (e' - e) as [|k|k] eqn:E; try lia; reflexivity.
Qed.

(** Rounding [p * 2^e] when it is the normal binary32 [q * 2^c]. *)
Lemma binary_round_normal (s : bool) (p q : positive) (e c : Z) :
  Zpos (digits2_pos q) = 24 -> -149 <= c <= 104 ->
  (c <= e /\ Zpos q = Zpos p * 2 ^ (e - c)) \/ (e < c /\ Zpos p = Zpos q * 2 ^ (c - e)) ->
  binary_round prec32 emax32 s p e = S754_finite s q c.
Proof.
  intros Hq Hc Hv.
  assert (Hd : Zpos (digits2_pos p) + e = 24 + c).
  { destruct Hv as [[Hle Hv] | [Hlt Hv]].
    - change (Zpos (digits2_pos q)) with (Zdigits2 (Zpos q)) in Hq.
      rewrite Hv, Zdigits2_mul_pow2 in Hq by lia. lia.
    - change (Zpos (digits2_pos p)) with (Zdigits2 (Zpos p)).
      rewrite Hv, Zdigits2_mul_pow2 by lia. lia. }
  unfold binary_round. rewrite Hd.
  replace (fexp prec32 emax32 (24 + c)) with c by fexp_lia.
  destruct Hv as [[Hle Hv] | [Hlt Hv]].
  - rewrite (surjective_pairing (shl_align p e c)), shl_align_snd by lia.
    pose proof (shl_align_fst p e c Hle) as Hf. rewrite <- Hv in Hf.
    injection Hf as ->.
    pose proof (binary_round_aux_exact s q 0 c) as H.
    cbn [Z.of_nat] in H. rewrite Z.pow_0_r, Z.mul_1_r, Z.add_0_r in H.
    apply H; [cbn [Zdigits2]; rewrite Hq|]; fexp_lia.
  - rewrite shl_align_id by lia. rewrite Hv.
    replace (c - e) with (Z.of_nat (Z.to_nat (c - e))) by lia.
    replace c with (e + Z.of_nat (Z.to_nat (c - e))) at 2 by lia.
    apply binary_round_aux_exact; [rewrite Zdigits2_mul_pow2_nat, Hq|]; fexp_lia.
Qed.

Lemma Z_sign_cases (z : Z) :
  z = 0 \/ exists s p, z = cond_Zopp s (Zpos p) /\ Zpos p = Z.abs z.
Proof.
  destruct z as [|p|p]; [left; reflexivity | right; exists false, p | right; exists true, p];
    split; reflexivity.
Qed.

Lemma cond_Zopp_mul (s : bool) (x y : Z) : cond_Zopp s (x * y) = cond_Zopp s x * y.
Proof. destruct s; unfold cond_Zopp; lia. Qed.

Lemma binary_normalize_signed (s : bool) (p : positive) (e : Z) :
  binary_normalize prec32 emax32 (cond_Zopp s (Zpos p)) e false
  = binary_round prec32 emax32 s p e.
Proof. destruct s; reflexivity. Qed.

(** The 24-bit mantissa of a positive below 2^24. *)
Lemma normal_mantissa (p : positive) :
  Zpos p < 2 ^ 24 ->
  exists q : positive,
    Zpos q = Zpos p * 2 ^ (24 - Zpos (digits2_pos p)) /\
    Zpos (digits2_pos q) = 24 /\
    1 <= Zpos (digits2_pos p) <= 24.
Proof.
  intros Hp. pose proof (digits2_pos_le p 24 ltac:(lia) Hp) as Hd.
  set (d := Zpos (digits2_pos p)) in *.
  set (q := Z.to_pos (Zpos p * 2 ^ (24 - d))).
  assert (Hq : Zpos q = Zpos p * 2 ^ (24 - d)).
  { unfold q. rewrite Z2Pos.id; [reflexivity|].
    apply Z.mul_pos_pos; [lia | pow2_pos]. }
  exists q. split; [exact Hq|]. split; [|exact Hd].
  change (Zpos (digits2_pos q)) with (Zdigits2 (Zpos q)).
  rewrite Hq, Zdigits2_mul_pow2 by lia. fold d. lia.
Qed.

(** The normal form of an integer below 2^24 scaled by 2^-11. *)
Lemma fixed_finite (s : bool) (p : positive) :
  Zpos p < 2 ^ 24 ->
  exists q : positive,
    Zpos q = Zpos p * 2 ^ (24 - Zpos (digits2_pos p)) /\
    Zpos (digits2_pos q) = 24 /\
    1 <= Zpos (digits2_pos p) <= 24 /\
    fixed (cond_Zopp s (Zpos p)) = S754_finite s q (Zpos (digits2_pos p) - 35).
Proof.
  intros Hp. destruct (normal_mantissa p Hp) as (q & Hq & Hdq & Hd).
  exists q. split; [exact Hq|]. split; [exact Hdq|]. split; [exact Hd|].
  unfold fixed. rewrite binary_normalize_signed.
  apply binary_round_normal; [exact Hdq | lia |]. left. split; [lia|].
  rewrite Hq. f_equal. f_equal. lia.
Qed.

(** An integer below 2^24 converts to [float] without rounding. *)
Lemma float_of_int_exact (s : bool) (p : positive) :
  Zpos p < 2 ^ 24 ->
  exists q : positive,
    Zpos q = Zpos p * 2 ^ (24 - Zpos (digits2_pos p)) /\
    Zpos (digits2_pos q) = 24 /\
    float_of_int (cond_Zopp s (Zpos p)) = S754_finite s q (Zpos (digits2_pos p) - 24).
Proof.
  intros Hp. destruct (normal_mantissa p Hp) as (q & Hq & Hdq & Hd).
  exists q. split; [exact Hq|]. split; [exact Hdq|].
  unfold float_of_int. rewrite binary_normalize_signed.
  apply binary_round_normal; [exact Hdq | lia |]. left. split; [lia|].
  rewrite Hq. f_equal. f_equal. lia.
Qed.

(** Dividing a normal binary32 by 2048 only moves its exponent. *)
Lemma fdiv_NN_SCALE (s : bool) (q : positive) (ex : Z) :
  Zpos (digits2_pos q) = 24 -> -137 <= ex <= 104 ->
  fdiv (S754_finite s q ex) (float_of_int NN_SCALE) = S754_finite s q (ex - 11).
Proof.
  intros Hd He.
  change (float_of_int NN_SCALE) with (S754_finite false 8388608 (-12)).
  unfold fdiv, SFdiv, SFdiv_core_binary. cbn [Zdigits2]. rewrite Hd, xorb_false_r.
  change (Zpos (digits2_pos 8388608)) with 24.
  replace (Z.min (fexp prec32 emax32 (24 + ex - (24 + -12))) (ex - -12)) with (ex - 12)
    by fexp_lia.
  replace (ex - -12 - (ex - 12)) with 24 by lia.
  rewrite Z.shiftl_mul_pow2 by lia.
  assert (Hdiv : Z.div_eucl (Zpos q * 2 ^ 24) 8388608 = (Zpos q * 2 ^ Z.of_nat 1, 0)).
  { rewrite (surjective_pairing (Z.div_eucl _ _)).
    change (fst (Z.div_eucl (Zpos q * 2 ^ 24) 8388608)) with ((Zpos q * 2 ^ 24) / 8388608).
    change (snd (Z.div_eucl (Zpos q * 2 ^ 24) 8388608)) with ((Zpos q * 2 ^ 24) mod 8388608).
    replace (Zpos q * 2 ^ 24) with (Zpos q * 2 ^ Z.of_nat 1 * 8388608) by (cbn; lia).
    rewrite Z.div_mul, Z.mod_mul by lia. reflexivity. }
  rewrite Hdiv.
  change (new_location 8388608 0) with loc_Exact.
  replace (ex - 11) with (ex - 12 + Z.of_nat 1) by (cbn; lia).
  apply binary_round_aux_exact; [rewrite Zdigits2_mul_pow2_nat, Hd|];
    cbn [Z.of_nat Pos.of_succ_nat]; fexp_lia.
Qed.

Lemma bounded_facts (m : positive) (e : Z) :
  bounded prec32 emax32 m e = true ->
  Z.max (Zpos (digits2_pos m) + e - 24) (-149) = e /\ e <= 104.
Proof.
  unfold bounded, canonical_mantissa. intros H.
  apply andb_true_iff in H. destruct H as [H1 H2].
  apply Z.eqb_eq in H1. apply Z.leb_le in H2.
  split; [exact H1 | exact H2].
Qed.

(** Multiplying a binary32 by 2048 only moves its exponent (and normalises
    a subnormal). *)
Lemma fmul_NN_SCALE (s : bool) (m : positive) (e : Z) :
  bounded prec32 emax32 m e = true -> e <= 93 ->
  exists (q : positive) (n : nat),
    Z.of_nat n <= 23 /\
    Zpos q = Zpos m * 2 ^ (23 - Z.of_nat n) /\
    fmul (S754_finite s m e) (float_of_int NN_SCALE)
    = S754_finite s q (e - 12 + Z.of_nat n).
Proof.
  intros Hb He. apply bounded_facts in Hb. destruct Hb as [Hc _].
  set (d := Zpos (digits2_pos m)) in *.
  assert (Hd : 1 <= d) by (unfold d; lia).
  set (n := Z.to_nat (Z.max (d - 1) (-137 - e))).
  assert (Hn : Z.of_nat n = Z.max (d - 1) (-137 - e)) by (unfold n; lia).
  set (q := Z.to_pos (Zpos m * 2 ^ (23 - Z.of_nat n))).
  assert (Hq : Zpos q = Zpos m * 2 ^ (23 - Z.of_nat n)).
  { unfold q. rewrite Z2Pos.id; [reflexivity|].
    apply Z.mul_pos_pos; [lia | pow2_pos]. }
  assert (Hm : Zpos (m * 8388608) = Zpos q * 2 ^ Z.of_nat n).
  { rewrite Hq, <- Z.mul_assoc, <- Z.pow_add_r by lia.
    replace (23 - Z.of_nat n + Z.of_nat n) with 23 by lia. reflexivity. }
  exists q, n. split; [lia|]. split; [exact Hq|].
  change (float_of_int NN_SCALE) with (S754_finite false 8388608 (-12)).
  unfold fmul, SFmul. rewrite xorb_false_r, Hm.
  replace (e + -12) with (e - 12) by lia.
  apply binary_round_aux_exact; [|fexp_lia].
  rewrite <- Hm.
  change (Zpos (m * 8388608)) with (Zpos m * 2 ^ 23).
  rewrite Zdigits2_mul_pow2 by lia. fold d. fexp_lia.
Qed.

Lemma float_trunc_scaled (s : bool) (m q : positive) (n : nat) (e : Z) :
  e <= -12 -> Z.of_nat n <= 23 ->
  Zpos q = Zpos m * 2 ^ (23 - Z.of_nat n) ->
  float_trunc (S754_finite s q (e - 12 + Z.of_nat n))
  = Some (cond_Zopp s (Zpos m / 2 ^ (- e - 11))).
Proof.
  intros He Hn Hq. unfold float_trunc.
  destruct (0 <=? e - 12 + Z.of_nat n) eqn:C; [apply Z.leb_le in C; lia|].
  rewrite Hq.
  replace (- (e - 12 + Z.of_nat n)) with ((- e - 11) + (23 - Z.of_nat n)) by lia.
  rewrite Z.pow_add_r by lia.
  rewrite Z.div_mul_cancel_r; [reflexivity | |]; apply Z.pow_nonzero; lia.
Qed.

(** A binary32 strictly between -16 - 1/2048 and 16 has a small exponent and
    a mantissa that 2048 scales into the [s16] range. *)
Lemma in_range_exponent (s : bool) (m : positive) (e : Z) :
  bounded prec32 emax32 m e = true ->
  (- (32769 # 2048) < SF2Q (S754_finite s m e))%Q ->
  (SF2Q (S754_finite s m e) < 16)%Q ->
  e <= -19 /\
  Zpos m < (if s then 32769 else 32768) * 2 ^ (- e - 11).
Proof.
  intros Hb Hlo Hhi. apply bounded_facts in Hb. destruct Hb as [Hc _].
  pose proof (digits2_pos_bounds m) as Hd.
  set (d := Zpos (digits2_pos m)) in *.
  unfold SF2Q in Hlo, Hhi.
  assert (He : e = -149 \/ 2 ^ 23 <= Zpos m).
  { destruct (Z.eq_dec e (-149)) as [|Hne]; [left; assumption | right].
    replace d with 24 in Hd by lia. exact (proj1 Hd). }
  destruct (0 <=? e) eqn:C; [apply Z.leb_le in C | apply Z.leb_gt in C].
  - exfalso. destruct He as [He|He]; [lia|].
    pose proof (Z.pow_pos_nonneg 2 e ltac:(lia) C) as Hpe.
    unfold Qlt in Hlo, Hhi. cbn [Qnum Qden inject_Z Qopp] in Hlo, Hhi.
    destruct s; cbn [cond_Zopp] in Hlo, Hhi; nia.
  - unfold Qlt in Hlo, Hhi. cbn [Qnum Qden Qopp] in Hlo, Hhi.
    rewrite Z2Pos.id in Hlo, Hhi by pow2_pos.
    assert (He' : e <= -19).
    { destruct He as [He|He]; [lia|].
      destruct (Z_le_gt_dec e (-19)) as [|Hgt]; [assumption | exfalso].
      assert (2 ^ (- e) <= 2 ^ 18) by (apply Z.pow_le_mono_r; lia).
      destruct s; cbn [cond_Zopp] in Hlo, Hhi; lia. }
    split; [exact He'|].
    assert (Hp : 2 ^ (- e) = 2048 * 2 ^ (- e - 11)).
    { replace (- e) with (11 + (- e - 11)) at 1 by lia.
      rewrite Z.pow_add_r by lia. reflexivity. }
    rewrite Hp in Hlo, Hhi.
    destruct s; cbn [cond_Zopp] in Hlo, Hhi; lia.
Qed.

(** [FIXED_TO_FLOAT] of an [s16] is the binary32 of raw/2048. *)
Lemma FIXED_TO_FLOAT_fixed (raw : Z) : is_s16 raw -> FIXED_TO_FLOAT raw = fixed raw.
Proof.
  intros Hr. unfold is_s16 in Hr.
  destruct (Z_sign_cases raw) as [-> | (s & p & -> & Hp)]; [reflexivity|].
  assert (Hp15 : Zpos p <= 2 ^ 15) by (destruct s; cbn [cond_Zopp] in Hr; lia).
  destruct (fixed_finite s p ltac:(lia)) as (q & Hq & Hdq & Hd & Hfix).
  pose proof (digits2_pos_le p 16 ltac:(lia) ltac:(lia)) as Hd16.
  destruct (float_of_int_exact s p ltac:(lia)) as (q' & Hq' & _ & Hconv).
  assert (q' = q) by (apply Pos2Z.inj; rewrite Hq, Hq'; reflexivity). subst q'.
  unfold FIXED_TO_FLOAT. rewrite Hconv, fdiv_NN_SCALE, Hfix by (assumption || lia).
  f_equal. lia.
Qed.

Lemma SF2Q_fixed (t : Z) : Z.abs t < 2 ^ 24 -> (SF2Q (fixed t) == t # 2048)%Q.
Proof.
  intros Ht. destruct (Z_sign_cases t) as [-> | (s & p & E & Hp)]; [reflexivity|].
  destruct (fixed_finite s p ltac:(lia)) as (q & Hq & _ & Hd & Hf).
  rewrite E, Hf. set (d := Zpos (digits2_pos p)) in *.
  unfold SF2Q. destruct (0 <=? d - 35) eqn:C; [apply Z.leb_le in C; lia|].
  unfold Qeq. cbn [Qnum Qden].
  rewrite Z2Pos.id by pow2_pos.
  replace (- (d - 35)) with (11 + (24 - d)) by lia.
  rewrite Z.pow_add_r by lia.
  rewrite <- !cond_Zopp_mul, Hq. change (2 ^ 11) with 2048. f_equal. lia.
Qed.

(** The value of [FIXED_TO_FLOAT raw] is raw/2048, with no rounding. *)
Lemma FIXED_TO_FLOAT_exact (raw : Z) :
  is_s16 raw -> (SF2Q (FIXED_TO_FLOAT raw) == raw # 2048)%Q.
Proof.
  intros Hr. rewrite (FIXED_TO_FLOAT_fixed raw Hr).
  apply SF2Q_fixed. unfold is_s16 in Hr. lia.
Qed.



End Binary32.

(** ** Fixed-point conversion *)

(** C7. For every finite binary32 [f] in the range of the format, in fact
    for every [f] with -16 - 1/2048 < f < 16, [FLOAT_TO_FIXED f] is defined,
    is an [s16], and [FIXED_TO_FLOAT] of it is that integer over 2048 and
    lies less than 1/2048 from [f]. *)
Theorem fixed_point_round_trip (f : float) :
  is_binary32 f = true -> is_finite f = true ->
  (- (32769 # 2048) < SF2Q f)%Q -> (SF2Q f < 16)%Q ->
  exists raw,
    FLOAT_TO_FIXED f = Some raw /\ is_s16 raw /\
    (SF2Q (FIXED_TO_FLOAT raw) == raw # 2048)%Q /\
    (Qabs (SF2Q (FIXED_TO_FLOAT raw) - SF2Q f) < 1 # 2048)%Q.
Proof.
  intros Hv Hf Hlo Hhi.
  destruct f as [s|s| |s m e]; try discriminate Hf.
  - exists 0. destruct s; repeat split; try reflexivity; unfold is_s16; lia.
  - unfold is_binary32, valid_binary in Hv.
    destruct (Binary32.in_range_exponent s m e Hv Hlo Hhi) as [He Hm].
    destruct (Binary32.fmul_NN_SCALE s m e Hv ltac:(lia)) as (q & n & Hn & Hq & Hmul).
    pose proof (Binary32.float_trunc_scaled s m q n e ltac:(lia) Hn Hq) as Ht.
    set (P := 2 ^ (- e - 11)) in *.
    assert (HP : 0 < P) by (apply Z.pow_pos_nonneg; lia).
    set (t := Zpos m / P) in *.
    assert (Hdm : Zpos m = P * t + Zpos m mod P) by (apply Z.div_mod; lia).
    pose proof (Z.mod_pos_bound (Zpos m) P HP) as Hr.
    assert (Ht0 : 0 <= t) by (apply Z.div_pos; lia).
    assert (Ht1 : t < (if s then 32769 else 32768)).
    { apply Z.div_lt_upper_bound; [exact HP|]. lia. }
    assert (Hraw : is_s16 (cond_Zopp s t)).
    { unfold is_s16. destruct s; cbn [cond_Zopp]; lia. }
    exists (cond_Zopp s t).
    assert (Hfix : FLOAT_TO_FIXED (S754_finite s m e) = Some (cond_Zopp s t)).
    { unfold FLOAT_TO_FIXED, float_to_s16. rewrite Hmul, Ht.
      unfold is_s16 in Hraw.
      destruct (- 2 ^ 15 <=? cond_Zopp s t) eqn:C1; [|apply Z.leb_gt in C1; lia].
      destruct (cond_Zopp s t <? 2 ^ 15) eqn:C2; [|apply Z.ltb_ge in C2; lia].
      reflexivity. }
    pose proof (Binary32.FIXED_TO_FLOAT_exact _ Hraw) as Hex.
    split; [exact Hfix|]. split; [exact Hraw|]. split; [exact Hex|].
    rewrite Hex. unfold SF2Q.
    destruct (0 <=? e) eqn:C; [apply Z.leb_le in C; lia|].
    assert (Hp : Zpos (Z.to_pos (2 ^ (- e))) = 2048 * P).
    { rewrite Z2Pos.id by (apply Z.pow_pos_nonneg; lia). unfold P.
      replace (- e) with (11 + (- e - 11)) at 1 by lia.
      rewrite Z.pow_add_r by lia. reflexivity. }
    unfold Qlt, Qabs, Qminus, Qplus, Qopp. cbn [Qnum Qden].
    rewrite Pos2Z.inj_mul, Hp.
    destruct s; cbn [cond_Zopp]; nia.
Qed.

(** ** Sums without rounding *)





(** ** Confidence *)

Lemma load_skipn (a : list Z) (i v : Z) :
  0 <= i -> load a i = Some v ->
  skipn (Z.to_nat i) a = v :: skipn (Z.to_nat (i + 1)) a.
Proof.
  intros Hi. unfold load. destruct (i <? 0) eqn:E; [apply Z.ltb_lt in E; lia|].
  replace (Z.to_nat (i + 1)) with (S (Z.to_nat i)) by lia.
  generalize (Z.to_nat i) as n. clear. intros n. revert a.
  induction n as [|n IH]; intros [|x a] H; try discriminate.
  - injection H as ->. reflexivity.
  - cbn [nth_error] in H. cbn [skipn]. rewrite (IH a H). reflexivity.
Qed.

Lemma NN_GetConfidence_loop_spec (outputs : list Z) (n : Z) :
  n <= Z.of_nat (length outputs) -> n < 2 ^ 16 ->
  forall fuel i sum,
    0 <= i <= n -> n - i < Z.of_nat fuel ->
    NN_GetConfidence_loop fuel outputs n i sum =
    Some (fold_left (fun acc x => fadd acc (FIXED_TO_FLOAT x))
            (firstn (Z.to_nat (n - i)) (skipn (Z.to_nat i) outputs)) sum).
Proof.
  intros Hlen Hn. induction fuel as [|fuel IH]; intros i sum Hi Hf; [lia|].
  cbn [NN_GetConfidence_loop].
  destruct (i <? n) eqn:C; [apply Z.ltb_lt in C | apply Z.ltb_ge in C].
  - destruct (load_in_bounds outputs i ltac:(lia)) as [oi Hoi]. rewrite Hoi.
    assert (Hw : to_u16 (i + 1) = i + 1) by (unfold to_u16; apply Z.mod_small; lia).
    rewrite Hw, IH by lia.
    rewrite (load_skipn outputs i oi) by (lia || assumption).
    replace (Z.to_nat (n - i)) with (S (Z.to_nat (n - (i + 1)))) by lia.
    reflexivity.
  - replace (Z.to_nat (n - i)) with 0%nat by lia. reflexivity.
Qed.


(** * Instances *)

Example FLOAT_TO_FIXED_0_9 :
  FLOAT_TO_FIXED (S754_finite false 15099494 (-24)) = Some 1843.
Proof. reflexivity. Qed.

Example FIXED_TO_FLOAT_1843 :
  FIXED_TO_FLOAT 1843 = S754_finite false 15097856 (-24).
Proof. reflexivity. Qed.

Example NN_Classify_ties : NN_Classify [5; 5; 3; 5; 0; 0; 0; 0; 0; 0] 10 = Some 0.
Proof. reflexivity. Qed.

Example NN_GetConfidence_zeros : NN_GetConfidence [0; 0; 0; 0] 4 2 = Some fzero.
Proof. reflexivity. Qed.

(** The reference topology with 0.9 at class 3 and 0.1 elsewhere, as the
    conversion of 0.9f and 0.1f gives them (1843 and 204): class 3, with
    confidence 1843/3679, a little above one half. *)
Example reference_scenario :
  let outputs := [204; 204; 204; 1843; 204; 204; 204; 204; 204; 204] in
  FLOAT_TO_FIXED (S754_finite false 13421773 (-27)) = Some 204 /\
  NN_Classify outputs 10 = Some 3 /\
  exists c, NN_GetConfidence outputs 10 3 = Some c /\
            (1 # 2 < SF2Q c)%Q /\ (SF2Q c < 501 # 1000)%Q.
Proof.
  cbv zeta. split; [reflexivity|]. split; [reflexivity|].
  eexists. split; [vm_compute; reflexivity|]. split; reflexivity.
Qed.

(** [NN_WaitDone(1000)] against a device that never shows DONE: -1 at the
    eleventh status load, after ten sleeps of 100us. *)
Example NN_WaitDone_1000_never_done :
  let w' := run (NN_IsDone dev_never_done) (polls dev_never_done 10 world_init) in
  NN_WaitDone dev_never_done 11 1000 world_init = Some (-1, w') /\
  slept (trace w') = 1000 /\
  NN_WaitDone dev_never_done 10 1000 world_init = None.
Proof. cbv zeta. split; [|split]; vm_compute; reflexivity. Qed.

Lemma NN_Classify_first_max_witness :
  exists idx, NN_Classify [5; 5; 3; 5; 0; 0; 0; 0; 0; 0] 10 = Some idx /\
              first_argmax [5; 5; 3; 5; 0; 0; 0; 0; 0; 0] 10 idx.
Proof.
  apply NN_Classify_first_max; cbn; lia.
Defined.

Lemma NN_WaitDone_zero_waits_forever_witness :
  (NN_WaitDone (dev_done_after 3) 10 0 world_init
     = Some (0, run (NN_IsDone (dev_done_after 3)) (polls (dev_done_after 3) 3 world_init)) /\
   slept (trace (run (NN_IsDone (dev_done_after 3)) (polls (dev_done_after 3) 3 world_init)))
     = slept (trace world_init) + 100 * Z.of_nat 3) /\
  NN_WaitDone dev_never_done 10 0 world_init = None.
Proof.
  split.
  - apply (proj1 (proj2 (NN_WaitDone_zero_waits_forever (dev_done_after 3) world_init))).
    + intros j Hj. destruct j as [|[|[|j]]]; [reflexivity | reflexivity | reflexivity | lia].
    + reflexivity.
    + lia.
  - apply (proj2 (proj2 (NN_WaitDone_zero_waits_forever dev_never_done world_init))).
    intros j Hj. reflexivity.
Defined.

Lemma NN_WaitDone_done_before_deadline_witness :
  NN_WaitDone (dev_done_after 1) 2 100 world_init
    = Some (0, run (NN_IsDone (dev_done_after 1)) (polls (dev_done_after 1) 1 world_init)) /\
  (NN_WaitDone dev_always_done 1 1 world_init
     = Some (0, run (NN_IsDone dev_always_done) world_init) /\
   exists v, trace (run (NN_IsDone dev_always_done) world_init)
             = trace world_init ++ [EvRead (NN_BASEADDR + NN_REG_STATUS) v]).
Proof.
  split.
  - apply (proj2 (proj2 (NN_WaitDone_done_before_deadline (dev_done_after 1) 100 world_init))).
    + intros j Hj. destruct j as [|j]; [split; reflexivity | lia].
    + reflexivity.
    + reflexivity.
    + lia.
  - apply (proj1 (proj2 (NN_WaitDone_done_before_deadline dev_always_done 1 world_init))).
    reflexivity.
Defined.

Lemma NN_RunInference_spec_witness :
  let w1 := if initialized (g_config world_init) =? 0 then run (NN_Init None) world_init else world_init in
  let w2 := run (NN_Start dev_always_done) w1 in
  exists r rw w3,
    NN_RunInference dev_always_done (Z.to_nat 100001) world_init = Some (r, w3) /\
    NN_WaitDone dev_always_done (Z.to_nat 100001) 10000000 w2 = Some (rw, w3) /\
    (rw < 0 -> r = -1) /\ (~ rw < 0 -> r = 0) /\
    (r = -1 <-> forall j, Z.of_nat j <= 100000 -> done_at dev_always_done w2 j = false) /\
    (r = 0 <-> exists j, Z.of_nat j <= 100000 /\ done_at dev_always_done w2 j = true) /\
    (initialized (g_config world_init) = 0 ->
       trace w1 = trace world_init ++ init_sequence (g_config world_init) /\
       g_config w1 = set_initialized (g_config world_init)) /\
    (g_config world_init = g_config_init ->
       trace w1 = trace world_init ++ init_sequence g_config_init /\
       topology (g_config w1) = topology g_config_init) /\
    (initialized (g_config world_init) <> 0 -> w1 = world_init) /\
    (let v := to_u32 (dev_always_done (trace w1) (NN_BASEADDR + NN_REG_CTRL)) in
     trace w2 = trace w1 ++ [EvRead (NN_BASEADDR + NN_REG_CTRL) v;
                             EvWrite (NN_BASEADDR + NN_REG_CTRL)
                                     (Z.lor v (Z.lor NN_CTRL_ENABLE NN_CTRL_START))]) /\
    g_config w2 = g_config w1 /\
    (exists k, Z.of_nat k <= 100000 /\
       (forall j, (j < k)%nat -> done_at dev_always_done w2 j = false) /\
       w3 = run (NN_IsDone dev_always_done) (polls dev_always_done k w2) /\
       slept (trace w3) = slept (trace w2) + 100 * Z.of_nat k) /\
    g_config w3 = g_config w1 /\
    topology (g_config w3) = topology (g_config world_init).
Proof.
  apply (NN_RunInference_spec dev_always_done (Z.to_nat 100001) world_init). lia.
Defined.


Lemma fixed_point_round_trip_witness :
  exists raw,
    FLOAT_TO_FIXED (S754_finite false 15099494 (-24)) = Some raw /\ is_s16 raw /\
    (SF2Q (FIXED_TO_FLOAT raw) == raw # 2048)%Q /\
    (Qabs (SF2Q (FIXED_TO_FLOAT raw) - SF2Q (S754_finite false 15099494 (-24))) < 1 # 2048)%Q.
Proof.
  apply fixed_point_round_trip; reflexivity.
Defined.


(** C6 with the defaults in place of the held configuration fails on
    [configured_world]: the configuration is not yet marked initialized, so [NN_RunInference] initialises, but what
    it stores to the topology registers is the configured 100, 8, 8, 4 and
    not the defaults 784, 16, 16, 10; the state it leaves is not the one
    an initialisation with the defaults gives. *)
Lemma NN_RunInference_init_not_defaults :
  initialized (g_config configured_world) = 0 /\
  NN_RunInference dev_always_done 1 configured_world
  = Some (0, {| g_config := {| base_addr := NN_BASEADDR;
                               num_inputs := 100; num_hidden1 := 8;
                               num_hidden2 := 8; num_outputs := 4;
                               initialized := 1 |};
                trace := trace configured_world
                         ++ [EvWrite (NN_BASEADDR + NN_REG_CTRL) NN_CTRL_SOFT_RESET;
                             EvSleep 10;
                             EvWrite (NN_BASEADDR + NN_REG_CTRL) 0;
                             EvSleep 10;
                             EvWrite (NN_BASEADDR + NN_REG_NUM_IN) 100;
                             EvWrite (NN_BASEADDR + NN_REG_NUM_H1) 8;
                             EvWrite (NN_BASEADDR + NN_REG_NUM_H2) 8;
                             EvWrite (NN_BASEADDR + NN_REG_NUM_OUT) 4;
                             EvRead (NN_BASEADDR + NN_REG_CTRL) 2;
                             EvWrite (NN_BASEADDR + NN_REG_CTRL) 3;
                             EvRead (NN_BASEADDR + NN_REG_STATUS) 2] |}) /\
  topology g_config_init = (784, 16, 16, 10) /\
  init_sequence (g_config configured_world) <> init_sequence g_config_init /\
  run (NN_Init None) configured_world
  <> run (NN_Init (Some g_config_init)) configured_world.
Proof.
  split; [reflexivity|].
  split; [vm_compute; reflexivity|].
  split; [reflexivity|].
  split; vm_compute; discriminate.
Qed.

(** * More of the driver *)

(** ** Status and control words *)

Lemma land_pow2 (a n : Z) :
  0 <= n -> Z.land a (2 ^ n) = if Z.testbit a n then 2 ^ n else 0.
Proof.
  intros Hn. apply Z.bits_inj'. intros i Hi.
  rewrite Z.land_spec, Z.pow2_bits_eqb by lia.
  destruct (Z.eqb_spec n i) as [->|Hne].
  - destruct (Z.testbit a i); [rewrite Z.pow2_bits_true by lia | rewrite Z.bits_0]; reflexivity.
  - rewrite andb_false_r.
    destruct (Z.testbit a n); [rewrite Z.pow2_bits_false by lia | rewrite Z.bits_0]; reflexivity.
Qed.

Lemma flag_of_bit (reg n : Z) :
  0 <= n ->
  (if Z.land reg (2 ^ n) =? 0 then 0 else 1) = Z.b2z (Z.testbit reg n).
Proof.
  intros Hn. rewrite land_pow2 by exact Hn.
  destruct (Z.testbit reg n); cbn [Z.b2z]; [|reflexivity].
  destruct (Z.eqb_spec (2 ^ n) 0) as [E|]; [|reflexivity].
  pose proof (Z.pow_pos_nonneg 2 n ltac:(lia) Hn). lia.
Qed.

Section RegisterWords.

Variable dev : device.

(** X1. [NN_GetStatus] does one load of STATUS and decodes it bit for bit:
    [busy] is bit 0, [done] is bit 1, [state] is bits 4 to 7 as a number
    from 0 to 15. On the same device answer [NN_IsBusy] and [NN_IsDone]
    give the same flags and leave the same world; the held configuration
    is not touched. *)
Theorem NN_GetStatus_decodes (w : world) :
  let reg := to_u32 (dev (trace w) (NN_BASEADDR + NN_REG_STATUS)) in
  let st := fst (NN_GetStatus dev w) in
  let w' := run (NN_GetStatus dev) w in
  busy st = Z.b2z (Z.testbit reg 0) /\
  done st = Z.b2z (Z.testbit reg 1) /\
  state st = (reg / 16) mod 16 /\ 0 <= state st <= 15 /\
  (forall i, 0 <= i < 4 -> Z.testbit (state st) i = Z.testbit reg (i + 4)) /\
  trace w' = trace w ++ [EvRead (NN_BASEADDR + NN_REG_STATUS) reg] /\
  g_config w' = g_config w /\
  NN_IsBusy dev w = (busy st, w') /\
  NN_IsDone dev w = (done st, w').
Proof.
  cbv zeta.
  set (reg := to_u32 (dev (trace w) (NN_BASEADDR + NN_REG_STATUS))).
  assert (Hst : Z.shiftr (Z.land reg NN_STAT_STATE_MASK) NN_STAT_STATE_SHIFT
                = (reg / 16) mod 16).
  { rewrite Z.shiftr_land. change (Z.shiftr NN_STAT_STATE_MASK NN_STAT_STATE_SHIFT) with (Z.ones 4).
    rewrite Z.land_ones by lia. unfold NN_STAT_STATE_SHIFT.
    rewrite Z.shiftr_div_pow2 by lia. reflexivity. }
  assert (Hbusy : (if Z.land reg NN_STAT_BUSY =? 0 then 0 else 1) = Z.b2z (Z.testbit reg 0))
    by (apply (flag_of_bit reg 0); lia).
  assert (Hdone : (if Z.land reg NN_STAT_DONE =? 0 then 0 else 1) = Z.b2z (Z.testbit reg 1))
    by (apply (flag_of_bit reg 1); lia).
  unfold run, NN_GetStatus, NN_IsBusy, NN_IsDone, NN_READ, Xil_In32, bind, ret.
  cbn [fst snd busy done state trace g_config]. fold reg.
  rewrite Hst, Hbusy, Hdone.
  repeat split; try reflexivity.
  - apply Z.mod_pos_bound. lia.
  - pose proof (Z.mod_pos_bound (reg / 16) 16 ltac:(lia)). lia.
  - intros i Hi. change 16 with (2 ^ 4).
    rewrite Z.mod_pow2_bits_low by lia.
    rewrite <- Z.shiftr_div_pow2 by lia. rewrite Z.shiftr_spec by lia. reflexivity.
Qed.

(** X2. [NN_Start] is a read-modify-write of CTRL: one load, then one store
    of the value read with ENABLE (bit 0) and START (bit 1) set and every
    other bit as it was read, SOFT_RESET included; the value stored is a
    [u32]. The held configuration is not touched. *)
Theorem NN_Start_read_modify_write (w : world) :
  let v := to_u32 (dev (trace w) (NN_BASEADDR + NN_REG_CTRL)) in
  let v' := Z.lor v (Z.lor NN_CTRL_ENABLE NN_CTRL_START) in
  let w' := run (NN_Start dev) w in
  trace w' = trace w ++ [EvRead (NN_BASEADDR + NN_REG_CTRL) v;
                         EvWrite (NN_BASEADDR + NN_REG_CTRL) v'] /\
  g_config w' = g_config w /\
  Z.testbit v' 0 = true /\ Z.testbit v' 1 = true /\
  (forall i, 2 <= i -> Z.testbit v' i = Z.testbit v i) /\
  0 <= v' < 2 ^ 32.
Proof.
  cbv zeta.
  set (v := to_u32 (dev (trace w) (NN_BASEADDR + NN_REG_CTRL))).
  assert (Hv : 0 <= v < 2 ^ 32) by (apply Z.mod_pos_bound; lia).
  change (Z.lor NN_CTRL_ENABLE NN_CTRL_START) with 3.
  assert (Hbits : forall i, 0 <= i ->
            Z.testbit (Z.lor v 3) i = Z.testbit v i || ((i =? 0) || (i =? 1))).
  { intros i Hi. rewrite Z.lor_spec. f_equal.
    destruct (Z.eqb_spec i 0) as [->|H0]; [reflexivity|].
    destruct (Z.eqb_spec i 1) as [->|H1]; [reflexivity|].
    change 3 with (Z.ones 2). apply Z.ones_spec_high. lia. }
  split; [|split; [|split; [|split; [|split]]]].
  - unfold run, NN_Start, NN_READ, NN_WRITE, Xil_In32, Xil_Out32, log, bind.
    cbn [snd trace]. fold v. rewrite <- app_assoc. reflexivity.
  - reflexivity.
  - rewrite Hbits by lia. apply orb_true_r.
  - rewrite Hbits by lia. apply orb_true_r.
  - intros i Hi. rewrite Hbits by lia.
    destruct (Z.eqb_spec i 0); [lia|]. destruct (Z.eqb_spec i 1); [lia|].
    apply orb_false_r.
  - split; [apply Z.lor_nonneg; lia|].
    destruct (Z.eq_dec (Z.lor v 3) 0) as [->|Hne]; [lia|].
    apply Z.log2_lt_pow2; [pose proof (proj2 (Z.lor_nonneg v 3) ltac:(lia)); lia|].
    rewrite Z.log2_lor by lia.
    destruct (Z.eq_dec v 0) as [->|Hv0]; [cbn; lia|].
    apply Z.max_lub_lt; [apply Z.log2_lt_pow2; lia | cbn; lia].
Qed.

End RegisterWords.

(** ** Bus discipline *)

Lemma only_adds_refl (ok : event -> bool) (w : world) : only_adds ok w w.
Proof. exists []. rewrite app_nil_r. split; reflexivity. Qed.

Lemma only_adds_trans (ok : event -> bool) (w1 w2 w3 : world) :
  only_adds ok w1 w2 -> only_adds ok w2 w3 -> only_adds ok w1 w3.
Proof.
  intros (e1 & H1 & O1) (e2 & H2 & O2). exists (e1 ++ e2).
  rewrite H2, H1, <- app_assoc, forallb_app, O1, O2. split; reflexivity.
Qed.

Lemma only_adds_weaken (ok ok' : event -> bool) (w w' : world) :
  (forall e, ok e = true -> ok' e = true) -> only_adds ok w w' -> only_adds ok' w w'.
Proof.
  intros Himp (evs & H & O). exists evs. split; [exact H|].
  rewrite forallb_forall in *. auto.
Qed.

Lemma poll_event_ok (e : event) : poll_event e = true -> reg_access_ok e = true.
Proof.
  destruct e as [a v|a v|us]; cbn [poll_event reg_access_ok]; intros H;
    [rewrite H; apply orb_true_r | discriminate | reflexivity].
Qed.

Section Frames.

Variable dev : device.

Lemma NN_IsDone_adds (w : world) :
  only_adds poll_event w (run (NN_IsDone dev) w) /\
  g_config (run (NN_IsDone dev) w) = g_config w.
Proof.
  split; [|reflexivity]. eexists. split; [reflexivity|]. reflexivity.
Qed.

Lemma poll_once_adds (w : world) :
  only_adds poll_event w (poll_once dev w) /\ g_config (poll_once dev w) = g_config w.
Proof.
  split; [|reflexivity]. destruct (trace_poll_once dev w) as [v Hv].
  eexists. split; [exact Hv|]. reflexivity.
Qed.

Lemma polls_adds (k : nat) : forall w,
  only_adds poll_event w (polls dev k w) /\ g_config (polls dev k w) = g_config w.
Proof.
  induction k as [|k IH]; intros w; cbn [polls].
  - split; [apply only_adds_refl | reflexivity].
  - destruct (IH (poll_once dev w)) as [Ha Hc].
    destruct (poll_once_adds w) as [Ha' Hc'].
    split; [exact (only_adds_trans _ _ _ _ Ha' Ha) | congruence].
Qed.

Lemma NN_Start_adds (w : world) :
  only_adds reg_access_ok w (run (NN_Start dev) w) /\
  g_config (run (NN_Start dev) w) = g_config w.
Proof.
  split; [|reflexivity].
  eexists. split.
  - unfold run, NN_Start, NN_READ, NN_WRITE, Xil_In32, Xil_Out32, log, bind.
    cbn [snd trace]. rewrite <- app_assoc. reflexivity.
  - reflexivity.
Qed.

Lemma NN_Init_adds (config : option NN_Config) (w : world) :
  only_adds reg_access_ok w (run (NN_Init config) w).
Proof.
  rewrite NN_Init_world. eexists. split; [reflexivity|]. reflexivity.
Qed.

(** What a returned wait leaves behind. *)
Lemma NN_WaitDone_returns (fuel : nat) (t : Z) (w : world) (r : Z) (w' : world) :
  NN_WaitDone dev fuel t w = Some (r, w') ->
  exists k, (k < fuel)%nat /\ still_polling dev t 0 w k /\
    w' = run (NN_IsDone dev) (polls dev k w) /\
    g_config w' = g_config w /\
    only_adds poll_event w w' /\
    slept (trace w') = slept (trace w) + 100 * Z.of_nat k /\
    ((r = 0 /\ done_at dev w k = true) \/
     (r = -1 /\ done_at dev w k = false /\ timed_out t (elapsed_after k 0) = true)).
Proof.
  intros H. apply NN_WaitDone_loop_result in H.
  destruct H as (k & Hk & Hq & -> & Hr). exists k.
  destruct (polls_adds k w) as [Ha Hc].
  destruct (NN_IsDone_adds (polls dev k w)) as [Ha' Hc'].
  split; [exact Hk|]. split; [exact Hq|]. split; [reflexivity|].
  split; [congruence|].
  split; [exact (only_adds_trans _ _ _ _ Ha Ha')|].
  split; [|exact Hr].
  rewrite slept_IsDone, slept_polls. reflexivity.
Qed.

(** X3. Whatever the held configuration says, [base_addr] included, the
    driver touches the accelerator only as the register table allows: loads
    of CTRL and STATUS and stores to CTRL and the four topology registers,
    all at [NN_BASEADDR]. STATUS is never stored to and the topology
    registers are never loaded. This holds for every operation, for every
    number of poll cycles of a wait and for every result of [NN_WaitDone]
    and [NN_RunInference]. *)
Theorem driver_bus_discipline (w : world) :
  (forall config, only_adds reg_access_ok w (run (NN_Init config) w)) /\
  only_adds reg_access_ok w (run NN_Reset w) /\
  (forall a b c d, only_adds reg_access_ok w (run (NN_Configure a b c d) w)) /\
  only_adds reg_access_ok w (run (NN_Start dev) w) /\
  only_adds reg_access_ok w (run (NN_IsBusy dev) w) /\
  only_adds reg_access_ok w (run (NN_IsDone dev) w) /\
  only_adds reg_access_ok w (run (NN_GetStatus dev) w) /\
  (forall k, only_adds reg_access_ok w (polls dev k w)) /\
  (forall fuel t r w', NN_WaitDone dev fuel t w = Some (r, w') ->
     only_adds reg_access_ok w w') /\
  (forall fuel r w', NN_RunInference dev fuel w = Some (r, w') ->
     only_adds reg_access_ok w w').
Proof.
  assert (Hone : forall (w0 : world) (e : event),
            reg_access_ok e = true ->
            only_adds reg_access_ok w0
              {| g_config := g_config w0; trace := trace w0 ++ [e] |}).
  { intros w0 e He. exists [e]. split; [reflexivity|]. cbn [forallb]. rewrite He. reflexivity. }
  split; [intros config; apply NN_Init_adds|].
  split; [eexists; split; [unfold run, NN_Reset, NN_WRITE, Xil_Out32, usleep, log, bind;
                           cbn [snd trace]; rewrite <- !app_assoc; reflexivity | reflexivity]|].
  split; [intros a b c d; eexists; split;
          [unfold run, NN_Configure, NN_WRITE, Xil_Out32, log, bind, get_config, set_config;
           cbn [snd trace]; rewrite <- !app_assoc; reflexivity | reflexivity]|].
  split; [apply NN_Start_adds|].
  split; [apply Hone; reflexivity|].
  split; [apply Hone; reflexivity|].
  split; [apply Hone; reflexivity|].
  split; [intros k; apply (only_adds_weaken poll_event); [apply poll_event_ok | apply polls_adds]|].
  split.
  - intros fuel t r w' H. apply NN_WaitDone_returns in H.
    destruct H as (k & _ & _ & _ & _ & Ha & _).
    exact (only_adds_weaken _ _ _ _ poll_event_ok Ha).
  - intros fuel r w' H. rewrite NN_RunInference_unfold in H.
    destruct (NN_WaitDone dev fuel 10000000 (inference_started dev w))
      as [[rw w3]|] eqn:E; [|discriminate].
    assert (w' = w3) by (destruct (rw <? 0); injection H as _ <-; reflexivity). subst w3.
    apply NN_WaitDone_returns in E. destruct E as (k & _ & _ & _ & _ & Ha & _).
    apply (only_adds_trans _ _ (inference_started dev w));
      [|exact (only_adds_weaken _ _ _ _ poll_event_ok Ha)].
    unfold inference_started.
    destruct (initialized (g_config w) =? 0).
    + apply (only_adds_trans _ _ (run (NN_Init None) w));
        [apply NN_Init_adds | apply NN_Start_adds].
    + apply NN_Start_adds.
Qed.

End Frames.

(** ** Bounded waits and the held configuration *)

Section Waits.

Variable dev : device.

(** Every wait with a deadline the counter can reach ends in time. *)
Lemma NN_WaitDone_within (timeout_us : Z) (w : world) (fuel : nat) :
  0 < timeout_us <= 4294967200 ->
  (timeout_us + 99) / 100 < Z.of_nat fuel ->
  exists r w' k,
    NN_WaitDone dev fuel timeout_us w = Some (r, w') /\
    Z.of_nat k <= (timeout_us + 99) / 100 /\
    w' = run (NN_IsDone dev) (polls dev k w) /\
    slept (trace w') = slept (trace w) + 100 * Z.of_nat k /\
    only_adds poll_event w w' /\
    g_config w' = g_config w /\
    (forall j, (j < k)%nat -> done_at dev w j = false) /\
    ((r = 0 /\ done_at dev w k = true) \/
     (r = -1 /\ done_at dev w k = false /\ Z.of_nat k = (timeout_us + 99) / 100)).
Proof.
  intros Ht Hf. set (c := (timeout_us + 99) / 100) in *.
  assert (Hc : 100 * c - 99 <= timeout_us <= 100 * c).
  { unfold c. pose proof (Z.div_mod (timeout_us + 99) 100 ltac:(lia)).
    pose proof (Z.mod_pos_bound (timeout_us + 99) 100 ltac:(lia)). lia. }
  assert (Hdead : forall k, still_polling dev timeout_us 0 w k -> Z.of_nat k <= c).
  { intros k Hq. destruct (Z_le_gt_dec (Z.of_nat k) c) as [|Hgt]; [assumption|].
    destruct (Hq (Z.to_nat c)) as [_ Hto]; [lia|].
    rewrite elapsed_after_in_range in Hto by lia.
    unfold timed_out in Hto. apply andb_false_iff in Hto.
    destruct Hto as [Hto|Hto]; [apply Z.ltb_ge in Hto | apply Z.leb_gt in Hto]; lia. }
  destruct (NN_WaitDone dev fuel timeout_us w) as [[r w']|] eqn:E.
  - destruct (NN_WaitDone_returns dev _ _ _ _ _ E)
      as (k & Hk & Hq & Hw & Hg & Ha & Hs & Hr).
    pose proof (Hdead k Hq) as Hle.
    exists r, w', k. split; [reflexivity|]. split; [exact Hle|]. split; [exact Hw|].
    split; [exact Hs|].
    assert (Hkc : r = -1 -> timed_out timeout_us (elapsed_after k 0) = true ->
                  Z.of_nat k = c).
    { intros _ Hto. rewrite elapsed_after_in_range in Hto by lia.
      unfold timed_out in Hto. apply andb_true_iff in Hto. destruct Hto as [_ Hto].
      apply Z.leb_le in Hto. lia. }
    split; [exact Ha|]. split; [exact Hg|].
    split; [intros j Hj; apply (Hq j Hj)|].
    destruct Hr as [[-> Hd] | (-> & Hd & Hto)]; [left; auto | right; auto].
  - apply NN_WaitDone_loop_None in E. apply Hdead in E. lia.
Qed.

(** X4. For every device and every deadline that the [u32] counter reaches
    in steps of 100 (0 < timeout_us <= 4294967200), [NN_WaitDone] returns
    within ceil(timeout_us/100) + 1 status loads: it has slept 100us per
    cycle, less than timeout_us + 100 in all, has put nothing but status
    loads and those sleeps on the bus and has not touched the held
    configuration. It returns 0 at the first cycle that sees DONE, and -1
    only at the last cycle, when no cycle saw DONE. *)
Theorem NN_WaitDone_bounded (timeout_us : Z) (w : world) (fuel : nat) :
  0 < timeout_us <= 4294967200 ->
  (timeout_us + 99) / 100 < Z.of_nat fuel ->
  exists r w' k,
    NN_WaitDone dev fuel timeout_us w = Some (r, w') /\
    Z.of_nat k <= (timeout_us + 99) / 100 /\
    w' = run (NN_IsDone dev) (polls dev k w) /\
    slept (trace w') = slept (trace w) + 100 * Z.of_nat k /\
    slept (trace w') - slept (trace w) < timeout_us + 100 /\
    only_adds poll_event w w' /\
    g_config w' = g_config w /\
    (forall j, (j < k)%nat -> done_at dev w j = false) /\
    ((r = 0 /\ done_at dev w k = true) \/
     (r = -1 /\ done_at dev w k = false /\ Z.of_nat k = (timeout_us + 99) / 100)).
Proof.
  intros Ht Hf.
  destruct (NN_WaitDone_within timeout_us w fuel Ht Hf)
    as (r & w' & k & E & Hk & Hw & Hs & Ha & Hg & Hq & Hr).
  exists r, w', k.
  split; [exact E|]. split; [exact Hk|]. split; [exact Hw|]. split; [exact Hs|].
  split; [|auto].
  pose proof (Z.div_mod (timeout_us + 99) 100 ltac:(lia)) as Hdm.
  pose proof (Z.mod_pos_bound (timeout_us + 99) 100 ltac:(lia)) as Hm.
  rewrite Hs. lia.
Qed.

(** X5. [NN_RunInference], given the 100001 poll cycles its wait can take,
    returns, and leaves the held configuration as it was except that it is
    now marked initialized (the flag is set to 1 when it was 0 and is not
    touched otherwise): topology and base address are kept. A call that
    follows does not initialise again: it goes straight to [NN_Start]. *)
Theorem NN_RunInference_keeps_config (fuel : nat) (w : world) :
  100000 < Z.of_nat fuel ->
  exists r w',
    NN_RunInference dev fuel w = Some (r, w') /\
    g_config w' = (if initialized (g_config w) =? 0
                   then set_initialized (g_config w) else g_config w) /\
    initialized (g_config w') <> 0 /\
    topology (g_config w') = topology (g_config w) /\
    base_addr (g_config w') = base_addr (g_config w) /\
    inference_started dev w' = run (NN_Start dev) w'.
Proof.
  intros Hf.
  destruct (NN_WaitDone_10s dev fuel (inference_started dev w) Hf)
    as (rw & w3 & k & E & _).
  pose proof (NN_WaitDone_returns dev _ _ _ _ _ E) as (k' & _ & _ & _ & Hg & _).
  exists (if rw <? 0 then -1 else 0), w3.
  assert (Hcfg : g_config w3 = (if initialized (g_config w) =? 0
                                then set_initialized (g_config w) else g_config w)).
  { rewrite Hg. unfold inference_started.
    destruct (initialized (g_config w) =? 0); [rewrite NN_Init_world|]; reflexivity. }
  split; [rewrite NN_RunInference_unfold, E; destruct (rw <? 0); reflexivity|].
  split; [exact Hcfg|].
  assert (Hinit : initialized (g_config w3) <> 0).
  { rewrite Hcfg. destruct (Z.eqb_spec (initialized (g_config w)) 0); [discriminate | assumption]. }
  split; [exact Hinit|].
  split; [rewrite Hcfg; destruct (initialized (g_config w) =? 0); reflexivity|].
  split; [rewrite Hcfg; destruct (initialized (g_config w) =? 0); reflexivity|].
  unfold inference_started.
  destruct (Z.eqb_spec (initialized (g_config w3)) 0); [contradiction | reflexivity].
Qed.

(** X6. A topology set with [NN_Configure] before the first inference is
    not lost to the lazy initialisation: when the held configuration is not
    yet marked initialized, [NN_RunInference] after [NN_Configure(a,b,c,d)]
    resets the accelerator and stores a, b, c, d to the topology registers
    a second time, not the defaults, before it starts the accelerator; the
    held topology stays (a,b,c,d). *)
Theorem NN_Configure_survives_lazy_init (a b c d : Z) (w : world) :
  initialized (g_config w) = 0 ->
  let cfg := {| base_addr := base_addr (g_config w);
                num_inputs := a; num_hidden1 := b; num_hidden2 := c; num_outputs := d;
                initialized := 0 |} in
  let w1 := run (NN_Configure a b c d) w in
  let w2 := inference_started dev w1 in
  exists v,
    trace w2 = trace w
               ++ [EvWrite (NN_BASEADDR + NN_REG_NUM_IN) a;
                   EvWrite (NN_BASEADDR + NN_REG_NUM_H1) b;
                   EvWrite (NN_BASEADDR + NN_REG_NUM_H2) c;
                   EvWrite (NN_BASEADDR + NN_REG_NUM_OUT) d]
               ++ init_sequence cfg
               ++ [EvRead (NN_BASEADDR + NN_REG_CTRL) v;
                   EvWrite (NN_BASEADDR + NN_REG_CTRL)
                           (Z.lor v (Z.lor NN_CTRL_ENABLE NN_CTRL_START))] /\
    g_config w2 = set_initialized cfg.
Proof.
  intros Hi. cbv zeta. unfold inference_started.
  assert (Hc : g_config (run (NN_Configure a b c d) w)
               = {| base_addr := base_addr (g_config w);
                    num_inputs := a; num_hidden1 := b; num_hidden2 := c; num_outputs := d;
                    initialized := 0 |}).
  { unfold run, NN_Configure, NN_WRITE, Xil_Out32, log, bind, get_config, set_config.
    cbn [snd g_config initialized base_addr]. rewrite Hi. reflexivity. }
  assert (Ht : trace (run (NN_Configure a b c d) w)
               = trace w ++ [EvWrite (NN_BASEADDR + NN_REG_NUM_IN) a;
                             EvWrite (NN_BASEADDR + NN_REG_NUM_H1) b;
                             EvWrite (NN_BASEADDR + NN_REG_NUM_H2) c;
                             EvWrite (NN_BASEADDR + NN_REG_NUM_OUT) d]).
  { unfold run, NN_Configure, NN_WRITE, Xil_Out32, log, bind, get_config, set_config.
    cbn [snd trace]. rewrite <- !app_assoc. reflexivity. }
  rewrite Hc. cbn [initialized Z.eqb]. rewrite NN_Init_world, Hc, Ht. cbv zeta.
  eexists. split; [|reflexivity].
  unfold run, NN_Start, NN_READ, NN_WRITE, Xil_In32, Xil_Out32, log, bind.
  cbn [snd trace]. rewrite <- !app_assoc. reflexivity.
Qed.

(** X7. [NN_Reset] pulses SOFT_RESET (store 4, 10us, store 0, 10us) and
    leaves the held configuration alone, the initialized flag included. So
    once the configuration is marked initialized, an inference after a reset
    goes straight to [NN_Start]: the topology registers are not stored to
    again. *)
Theorem NN_Reset_keeps_initialized (w : world) :
  initialized (g_config w) <> 0 ->
  let w1 := run NN_Reset w in
  g_config w1 = g_config w /\
  trace w1 = trace w ++ [EvWrite (NN_BASEADDR + NN_REG_CTRL) NN_CTRL_SOFT_RESET; EvSleep 10;
                         EvWrite (NN_BASEADDR + NN_REG_CTRL) 0; EvSleep 10] /\
  slept (trace w1) = slept (trace w) + 20 /\
  exists v, trace (inference_started dev w1)
            = trace w1 ++ [EvRead (NN_BASEADDR + NN_REG_CTRL) v;
                           EvWrite (NN_BASEADDR + NN_REG_CTRL)
                                   (Z.lor v (Z.lor NN_CTRL_ENABLE NN_CTRL_START))].
Proof.
  intros Hi. cbv zeta.
  assert (Ht : trace (run NN_Reset w)
               = trace w ++ [EvWrite (NN_BASEADDR + NN_REG_CTRL) NN_CTRL_SOFT_RESET; EvSleep 10;
                             EvWrite (NN_BASEADDR + NN_REG_CTRL) 0; EvSleep 10]).
  { unfold run, NN_Reset, NN_WRITE, Xil_Out32, usleep, log, bind.
    cbn [snd trace]. rewrite <- !app_assoc. reflexivity. }
  split; [reflexivity|]. split; [exact Ht|].
  split; [rewrite Ht, slept_app; cbn [slept]; lia|].
  unfold inference_started.
  change (g_config (run NN_Reset w)) with (g_config w).
  destruct (Z.eqb_spec (initialized (g_config w)) 0); [contradiction|].
  eexists.
  unfold run at 1. unfold NN_Start, NN_READ, NN_WRITE, Xil_In32, Xil_Out32, log, bind.
  cbn [snd trace]. rewrite <- !app_assoc. reflexivity.
Qed.

End Waits.

(** ** The interpreter at its edges *)

Lemma load_map (f : Z -> Z) (a : list Z) (i : Z) :
  load (map f a) i = option_map f (load a i).
Proof.
  unfold load. destruct (i <? 0); [reflexivity|]. apply nth_error_map.
Qed.

Lemma load_Some_bounds (a : list Z) (i v : Z) :
  load a i = Some v -> 0 <= i < Z.of_nat (length a).
Proof.
  unfold load. destruct (i <? 0) eqn:E; [discriminate|]. apply Z.ltb_ge in E.
  intros H. assert (Hn : nth_error a (Z.to_nat i) <> None) by congruence.
  apply nth_error_Some in Hn. lia.
Qed.

Lemma load_None (a : list Z) (i : Z) :
  i < 0 \/ Z.of_nat (length a) <= i -> load a i = None.
Proof.
  intros H. unfold load. destruct (i <? 0) eqn:E; [reflexivity|]. apply Z.ltb_ge in E.
  apply nth_error_None. lia.
Qed.

Lemma NN_Classify_loop_map (f : Z -> Z) (outputs : list Z) (n : Z) :
  (forall x y, x < y -> f x < f y) ->
  forall fuel i mv mi,
    NN_Classify_loop fuel (map f outputs) n i (f mv) mi
    = NN_Classify_loop fuel outputs n i mv mi.
Proof.
  intros Hf. induction fuel as [|fuel IH]; intros i mv mi; [reflexivity|].
  cbn [NN_Classify_loop]. destruct (i <? n); [|reflexivity].
  rewrite load_map. destruct (load outputs i) as [oi|]; [|reflexivity].
  cbn [option_map].
  assert (Hcmp : (f mv <? f oi) = (mv <? oi)).
  { destruct (Z.ltb_spec mv oi) as [Hlt|Hge].
    - apply Z.ltb_lt. auto.
    - apply Z.ltb_ge. destruct (Z.eq_dec oi mv) as [->|Hne]; [lia|].
      assert (f oi < f mv) by (apply Hf; lia). lia. }
  rewrite Hcmp. destruct (mv <? oi); apply IH.
Qed.

(** X8. The class chosen depends only on the order of the samples: applying
    one strictly increasing map to every sample (another scale, an offset)
    changes nothing in what [NN_Classify] returns, undefined cases
    included. *)
Theorem NN_Classify_order_only (f : Z -> Z) (outputs : list Z) (num_outputs : Z) :
  (forall x y, x < y -> f x < f y) ->
  NN_Classify (map f outputs) num_outputs = NN_Classify outputs num_outputs.
Proof.
  intros Hf. unfold NN_Classify. rewrite load_map.
  destruct (load outputs 0) as [o0|]; [|reflexivity].
  cbn [option_map]. apply NN_Classify_loop_map. exact Hf.
Qed.

(** X9. Comparing the raw [s16] samples is comparing their float values:
    the sample at the index [NN_Classify] returns has the largest
    [FIXED_TO_FLOAT] value of the vector, and every sample before it has a
    strictly smaller one. *)
Theorem NN_Classify_float_max (outputs : list Z) (num_outputs : Z) :
  1 <= num_outputs < 2 ^ 16 ->
  num_outputs <= Z.of_nat (length outputs) ->
  Forall is_s16 outputs ->
  exists idx sel,
    NN_Classify outputs num_outputs = Some idx /\
    0 <= idx < num_outputs /\
    load outputs idx = Some sel /\
    (forall j v, 0 <= j < num_outputs -> load outputs j = Some v ->
       (SF2Q (FIXED_TO_FLOAT v) <= SF2Q (FIXED_TO_FLOAT sel))%Q) /\
    (forall j v, 0 <= j < idx -> load outputs j = Some v ->
       (SF2Q (FIXED_TO_FLOAT v) < SF2Q (FIXED_TO_FLOAT sel))%Q).
Proof.
  intros Hn Hlen Hs.
  assert (Hin : forall j v, load outputs j = Some v -> is_s16 v).
  { intros j v Hv. unfold load in Hv. destruct (j <? 0); [discriminate|].
    apply nth_error_In in Hv. rewrite Forall_forall in Hs. auto. }
  destruct (load_in_bounds outputs 0 ltac:(lia)) as [o0 H0].
  assert (H : exists idx, NN_Classify outputs num_outputs = Some idx /\
                          first_argmax outputs num_outputs idx).
  { unfold NN_Classify. rewrite H0. apply NN_Classify_loop_spec; try lia.
    split; [lia | split; [exact H0 | split]].
    - intros j v Hj Hv. assert (j = 0) by lia. subst j.
      rewrite H0 in Hv. injection Hv as <-. lia.
    - intros j v Hj. lia. }
  destruct H as (idx & Hc & Hi & m & Hm & Hle & Hlt).
  exists idx, m. split; [exact Hc|]. split; [exact Hi|]. split; [exact Hm|].
  split; intros j v Hj Hv;
    rewrite (Binary32.FIXED_TO_FLOAT_exact v (Hin j v Hv)),
            (Binary32.FIXED_TO_FLOAT_exact m (Hin idx m Hm));
    [unfold Qle | unfold Qlt]; cbn [Qnum Qden].
  - specialize (Hle j v Hj Hv). lia.
  - specialize (Hlt j v Hj Hv). lia.
Qed.

Lemma NN_Classify_loop_bounds (outputs : list Z) (n : Z) :
  n < 2 ^ 16 ->
  forall fuel i mv mi idx,
    0 <= mi < i -> mi < Z.of_nat (length outputs) ->
    NN_Classify_loop fuel outputs n i mv mi = Some idx ->
    0 <= idx < Z.of_nat (length outputs) /\ (idx = mi \/ i <= idx < n).
Proof.
  intros Hn. induction fuel as [|fuel IH]; intros i mv mi idx Hmi Hlen H; [discriminate|].
  cbn [NN_Classify_loop] in H.
  destruct (i <? n) eqn:C; [apply Z.ltb_lt in C|].
  - destruct (load outputs i) as [oi|] eqn:L; [|discriminate].
    pose proof (load_Some_bounds _ _ _ L) as Hb.
    assert (Hw : to_u16 (i + 1) = i + 1) by (unfold to_u16; apply Z.mod_small; lia).
    rewrite Hw in H.
    destruct (mv <? oi); apply IH in H; lia.
  - injection H as <-. lia.
Qed.

Lemma NN_Classify_loop_overrun (outputs : list Z) (n : Z) :
  Z.of_nat (length outputs) < n < 2 ^ 16 ->
  forall fuel i mv mi,
    1 <= i <= Z.of_nat (length outputs) ->
    Z.of_nat (length outputs) - i < Z.of_nat fuel ->
    NN_Classify_loop fuel outputs n i mv mi = None.
Proof.
  intros Hn. induction fuel as [|fuel IH]; intros i mv mi Hi Hf; [lia|].
  cbn [NN_Classify_loop].
  destruct (i <? n) eqn:C; [|apply Z.ltb_ge in C; lia].
  destruct (Z.eq_dec i (Z.of_nat (length outputs))) as [E|Hne].
  - rewrite load_None by lia. reflexivity.
  - destruct (load_in_bounds outputs i ltac:(lia)) as [oi Hoi]. rewrite Hoi.
    assert (Hw : to_u16 (i + 1) = i + 1) by (unfold to_u16; apply Z.mod_small; lia).
    rewrite Hw. destruct (mv <? oi); apply IH; lia.
Qed.

(** X10. [NN_Classify] at its edges. An index it returns is inside the
    array, and is either 0 or below [num_outputs]. With [num_outputs] 0 or 1
    it returns 0 after reading only [outputs[0]]. It is undefined on an
    empty array (it reads [outputs[0]] whatever [num_outputs] is) and on an
    array shorter than [num_outputs], which it reads past the end. *)
Theorem NN_Classify_edges (outputs : list Z) (num_outputs : Z) :
  num_outputs < 2 ^ 16 ->
  (forall idx, NN_Classify outputs num_outputs = Some idx ->
     0 <= idx < Z.of_nat (length outputs) /\ (idx = 0 \/ 1 <= idx < num_outputs)) /\
  (num_outputs <= 1 -> outputs <> [] -> NN_Classify outputs num_outputs = Some 0) /\
  (outputs = [] -> NN_Classify outputs num_outputs = None) /\
  (Z.of_nat (length outputs) < num_outputs -> NN_Classify outputs num_outputs = None).
Proof.
  intros Hn. unfold NN_Classify.
  split; [|split; [|split]].
  - intros idx H. destruct (load outputs 0) as [o0|] eqn:L; [|discriminate].
    pose proof (load_Some_bounds _ _ _ L) as Hb.
    apply (NN_Classify_loop_bounds outputs num_outputs Hn) in H; lia.
  - intros Hle Hne. destruct outputs as [|o0 rest]; [contradiction|].
    cbn [load Z.ltb Z.compare Z.to_nat nth_error NN_Classify_loop].
    destruct (1 <? num_outputs) eqn:C; [apply Z.ltb_lt in C; lia | reflexivity].
  - intros ->. reflexivity.
  - intros Hlen. destruct (load outputs 0) as [o0|] eqn:L; [|reflexivity].
    pose proof (load_Some_bounds _ _ _ L) as Hb.
    apply (NN_Classify_loop_overrun outputs num_outputs); lia.
Qed.

(** X11. [NN_GetConfidence] at its edges. The class index is checked against
    nothing: any sample of the array can be selected, also one beyond the
    first [num_outputs], and the result is that sample's float over the sum
    of the first [num_outputs] when the sum is greater than 0, else the
    float itself. With [num_outputs = 0] the sum is 0.0 and the float of the
    selected sample comes back as it is. An index outside the array is
    undefined. *)
Theorem NN_GetConfidence_edges (outputs : list Z) (num_outputs class_idx : Z) :
  0 <= num_outputs < 2 ^ 16 ->
  num_outputs <= Z.of_nat (length outputs) ->
  (forall sel, load outputs class_idx = Some sel ->
     let sum := float_sum (firstn (Z.to_nat num_outputs) outputs) in
     NN_GetConfidence outputs num_outputs class_idx
     = Some (if fgt sum fzero then fdiv (FIXED_TO_FLOAT sel) sum else FIXED_TO_FLOAT sel) /\
     (num_outputs = 0 ->
        NN_GetConfidence outputs num_outputs class_idx = Some (FIXED_TO_FLOAT sel))) /\
  (class_idx < 0 \/ Z.of_nat (length outputs) <= class_idx ->
     NN_GetConfidence outputs num_outputs class_idx = None).
Proof.
  intros Hn Hlen. split.
  - intros sel Hsel. cbv zeta.
    assert (E : NN_GetConfidence outputs num_outputs class_idx =
                Some (if fgt (float_sum (firstn (Z.to_nat num_outputs) outputs)) fzero
                      then fdiv (FIXED_TO_FLOAT sel)
                                (float_sum (firstn (Z.to_nat num_outputs) outputs))
                      else FIXED_TO_FLOAT sel)).
    { unfold NN_GetConfidence. rewrite Hsel.
      rewrite (NN_GetConfidence_loop_spec outputs num_outputs) by lia.
      rewrite Z.sub_0_r. cbn [Z.to_nat skipn].
      fold (float_sum (firstn (Z.to_nat num_outputs) outputs)).
      destruct (fgt _ fzero); reflexivity. }
    split; [exact E|]. intros ->. rewrite E. reflexivity.
  - intros Hout. unfold NN_GetConfidence. rewrite load_None by exact Hout. reflexivity.
Qed.

(** ** The conversion macros beyond the round trip *)

Lemma binary_round_aux_overflow (s : bool) (q : positive) (n : nat) (ex : Z) :
  fexp prec32 emax32 (Zdigits2 (Zpos q * 2 ^ Z.of_nat n) + ex) - ex = Z.of_nat n ->
  emax32 - prec32 < ex + Z.of_nat n ->
  binary_round_aux prec32 emax32 s (Zpos q * 2 ^ Z.of_nat n) ex loc_Exact
  = S754_infinity s.
Proof.
  intros Hn He. unfold binary_round_aux.
  assert (H1 : shr_fexp prec32 emax32 (Zpos q * 2 ^ Z.of_nat n) ex loc_Exact
               = ({| shr_m := Zpos q; shr_r := false; shr_s := false |}, ex + Z.of_nat n)).
  { unfold shr_fexp. rewrite Hn. cbn [shr_record_of_loc]. unfold shr.
    destruct n as [|n].
    - cbn [Z.of_nat]. rewrite Z.pow_0_r, Z.mul_1_r, Z.add_0_r. reflexivity.
    - pose proof (Binary32.shr_1_iter_exact (S n) q) as Hq.
      set (r0 := {| shr_m := Zpos q * 2 ^ Z.of_nat (S n); shr_r := false; shr_s := false |}) in *.
      destruct (Z.of_nat (S n)) as [|p|p] eqn:E; try lia.
      rewrite Binary32.iter_pos_nat.
      replace (Pos.to_nat p) with (S n) by lia. rewrite Hq. reflexivity. }
  rewrite H1. cbn [shr_m loc_of_shr_record round_nearest_even].
  assert (H2 : shr_fexp prec32 emax32 (Zpos q) (ex + Z.of_nat n) loc_Exact
               = ({| shr_m := Zpos q; shr_r := false; shr_s := false |}, ex + Z.of_nat n)).
  { unfold shr_fexp. rewrite Binary32.Zdigits2_mul_pow2_nat in Hn. cbn [Zdigits2].
    replace (fexp prec32 emax32 (Zpos (digits2_pos q) + (ex + Z.of_nat n)) - (ex + Z.of_nat n))
      with 0; [reflexivity|].
    replace (Zpos (digits2_pos q) + (ex + Z.of_nat n))
      with (Zpos (digits2_pos q) + Z.of_nat n + ex) by lia. lia. }
  rewrite H2. cbn [shr_m].
  apply Z.leb_gt in He. rewrite He. reflexivity.
Qed.

(** The product of a binary32 and 2048, whatever its size: the same value
    with 24 bits of mantissa, or an infinity. *)
Lemma fmul_NN_SCALE_any (s : bool) (m : positive) (e : Z) :
  bounded prec32 emax32 m e = true ->
  exists (q : positive) (n : nat),
    Z.of_nat n <= 23 /\
    Zpos q = Zpos m * 2 ^ (23 - Z.of_nat n) /\
    fmul (S754_finite s m e) (float_of_int NN_SCALE)
    = if e <=? 93 then S754_finite s q (e - 12 + Z.of_nat n) else S754_infinity s.
Proof.
  intros Hb. destruct (Z.leb_spec e 93) as [He|He].
  - destruct (Binary32.fmul_NN_SCALE s m e Hb He) as (q & n & H). exists q, n. exact H.
  - apply Binary32.bounded_facts in Hb. destruct Hb as [Hc Hmax].
    set (d := Zpos (digits2_pos m)) in *.
    assert (Hd : d = 24) by lia.
    exists m, 23%nat.
    split; [lia|]. split; [change (23 - Z.of_nat 23) with 0; lia|].
    change (float_of_int NN_SCALE) with (S754_finite false 8388608 (-12)).
    unfold fmul, SFmul. rewrite xorb_false_r.
    change (Zpos (m * 8388608)) with (Zpos m * 2 ^ Z.of_nat 23).
    replace (e + -12) with (e - 12) by lia.
    apply binary_round_aux_overflow.
    + rewrite Binary32.Zdigits2_mul_pow2_nat. fold d.
      unfold fexp, emin, prec32, emax32. lia.
    + unfold prec32, emax32. lia.
Qed.

Lemma float_trunc_scaled_any (s : bool) (m q : positive) (n : nat) (e : Z) :
  Z.of_nat n <= 23 ->
  Zpos q = Zpos m * 2 ^ (23 - Z.of_nat n) ->
  float_trunc (S754_finite s q (e - 12 + Z.of_nat n))
  = Some (cond_Zopp s (scaled_trunc m e)).
Proof.
  intros Hn Hq. unfold float_trunc, scaled_trunc. rewrite Hq. f_equal. f_equal.
  destruct (Z.leb_spec 0 (e - 12 + Z.of_nat n)) as [C|C].
  - destruct (Z.leb_spec 0 (e + 11)) as [C'|C']; [|lia].
    rewrite <- Z.mul_assoc, <- Z.pow_add_r by lia. f_equal. f_equal. lia.
  - destruct (Z.leb_spec 0 (e + 11)) as [C'|C'].
    + replace (23 - Z.of_nat n) with ((e + 11) + (- (e - 12 + Z.of_nat n))) by lia.
      rewrite Z.pow_add_r, Z.mul_assoc by lia.
      apply Z.div_mul. apply Z.pow_nonzero; lia.
    + replace (- (e - 12 + Z.of_nat n)) with ((- e - 11) + (23 - Z.of_nat n)) by lia.
      rewrite Z.pow_add_r by lia.
      apply Z.div_mul_cancel_r; apply Z.pow_nonzero; lia.
Qed.

(** [FLOAT_TO_FIXED] on a finite binary32, in integers. *)
Lemma FLOAT_TO_FIXED_finite (s : bool) (m : positive) (e : Z) :
  bounded prec32 emax32 m e = true ->
  FLOAT_TO_FIXED (S754_finite s m e)
  = if e <=? 93 then
      let z := cond_Zopp s (scaled_trunc m e) in
      if (- 2 ^ 15 <=? z) && (z <? 2 ^ 15) then Some z else None
    else None.
Proof.
  intros Hb. destruct (fmul_NN_SCALE_any s m e Hb) as (q & n & Hn & Hq & Hmul).
  unfold FLOAT_TO_FIXED, float_to_s16. rewrite Hmul.
  destruct (e <=? 93); [|reflexivity].
  rewrite (float_trunc_scaled_any s m q n e Hn Hq). reflexivity.
Qed.

(** X12. Decoding then encoding is the identity: for every [s16] value,
    [FLOAT_TO_FIXED (FIXED_TO_FLOAT raw)] is defined and is [raw]. *)
Theorem FLOAT_TO_FIXED_of_FIXED_TO_FLOAT (raw : Z) :
  is_s16 raw -> FLOAT_TO_FIXED (FIXED_TO_FLOAT raw) = Some raw.
Proof.
  intros Hr. rewrite (Binary32.FIXED_TO_FLOAT_fixed raw Hr). unfold is_s16 in Hr.
  destruct (Binary32.Z_sign_cases raw) as [-> | (s & p & E & Hp)]; [reflexivity|].
  assert (Hp15 : Zpos p <= 2 ^ 15) by lia.
  destruct (Binary32.fixed_finite s p ltac:(lia)) as (q & Hq & Hdq & Hd & Hfix).
  pose proof (Binary32.digits2_pos_le p 16 ltac:(lia) ltac:(lia)) as Hd16.
  set (d := Zpos (digits2_pos p)) in *.
  rewrite E at 1. rewrite Hfix.
  assert (Hb : bounded prec32 emax32 q (d - 35) = true).
  { unfold bounded, canonical_mantissa. rewrite Hdq.
    apply andb_true_iff. split; [apply Z.eqb_eq | apply Z.leb_le];
      unfold fexp, emin, prec32, emax32; lia. }
  rewrite (FLOAT_TO_FIXED_finite s q (d - 35) Hb).
  destruct (Z.leb_spec (d - 35) 93) as [_|C]; [|lia]. cbv zeta.
  assert (Ht : scaled_trunc q (d - 35) = Zpos p).
  { unfold scaled_trunc. destruct (Z.leb_spec 0 (d - 35 + 11)) as [C|C]; [lia|].
    rewrite Hq. replace (- (d - 35) - 11) with (24 - d) by lia.
    apply Z.div_mul. apply Z.pow_nonzero; lia. }
  rewrite Ht, <- E.
  destruct (- 2 ^ 15 <=? raw) eqn:C1; [|apply Z.leb_gt in C1; lia].
  destruct (raw <? 2 ^ 15) eqn:C2; [|apply Z.ltb_ge in C2; lia].
  reflexivity.
Qed.

Lemma scaled_trunc_nonneg (m : positive) (e : Z) : 0 <= scaled_trunc m e.
Proof.
  unfold scaled_trunc. destruct (0 <=? e + 11) eqn:C.
  - apply Z.leb_le in C. apply Z.mul_nonneg_nonneg; [lia|]. apply Z.pow_nonneg. lia.
  - apply Z.leb_gt in C. apply Z.div_pos; [lia|]. apply Z.pow_pos_nonneg; lia.
Qed.

(** [scaled_trunc m e] is the floor of [2048 * m * 2^e]. *)
Lemma scaled_trunc_lt (m : positive) (e N : Z) :
  scaled_trunc m e < N <->
  (if 0 <=? e then Zpos m * 2 ^ e * 2048 < N else Zpos m * 2048 < N * 2 ^ (- e)).
Proof.
  unfold scaled_trunc.
  destruct (Z.leb_spec 0 e) as [He|He].
  - destruct (Z.leb_spec 0 (e + 11)) as [_|C]; [|lia].
    rewrite Z.pow_add_r by lia. change (2 ^ 11) with 2048. lia.
  - destruct (Z.leb_spec 0 (e + 11)) as [C|C].
    + assert (Hp : 0 < 2 ^ (- e)) by (apply Z.pow_pos_nonneg; lia).
      assert (E : 2048 = 2 ^ (e + 11) * 2 ^ (- e)).
      { rewrite <- Z.pow_add_r by lia. replace (e + 11 + - e) with 11 by lia. reflexivity. }
      rewrite E at 1. rewrite Z.mul_assoc.
      apply Z.mul_lt_mono_pos_r. exact Hp.
    + set (P := 2 ^ (- e - 11)).
      assert (HP : 0 < P) by (apply Z.pow_pos_nonneg; lia).
      assert (E : 2 ^ (- e) = 2048 * P).
      { unfold P. replace (- e) with (11 + (- e - 11)) at 1 by lia.
        rewrite Z.pow_add_r by lia. reflexivity. }
      rewrite E.
      pose proof (Z.div_mod (Zpos m) P ltac:(lia)) as Hdm.
      pose proof (Z.mod_pos_bound (Zpos m) P HP) as Hr.
      split; intros H; nia.
Qed.

Lemma abs_cond_Zopp (s : bool) (x : Z) : 0 <= x -> Z.abs (cond_Zopp s x) = x.
Proof. destruct s; unfold cond_Zopp; lia. Qed.

(** X13. The conversion to fixed point truncates toward zero: wherever
    [FLOAT_TO_FIXED f] is defined, the result has the sign of [f] (or is 0)
    and its magnitude over 2048 is at most the magnitude of [f] and less
    than 1/2048 below it. It never rounds away from zero (0.1f gives 204,
    not 205). *)
Theorem FLOAT_TO_FIXED_truncates (f : float) (raw : Z) :
  is_binary32 f = true ->
  FLOAT_TO_FIXED f = Some raw ->
  (Z.abs raw # 2048 <= Qabs (SF2Q f))%Q /\
  (Qabs (SF2Q f) < (Z.abs raw + 1) # 2048)%Q /\
  ((0 <= SF2Q f)%Q -> 0 <= raw) /\
  ((SF2Q f <= 0)%Q -> raw <= 0).
Proof.
  intros Hv H.
  destruct f as [s|s| |s m e]; try discriminate H.
  - assert (raw = 0) by (destruct s; cbv in H; congruence). subst raw.
    repeat split; first [reflexivity | discriminate | intros; lia].
  - unfold is_binary32, valid_binary in Hv.
    rewrite (FLOAT_TO_FIXED_finite s m e Hv) in H.
    destruct (e <=? 93); [|discriminate]. cbv zeta in H.
    destruct (_ && _); [|discriminate]. injection H as <-.
    pose proof (scaled_trunc_nonneg m e) as HT.
    pose proof (proj2 (scaled_trunc_lt m e (scaled_trunc m e))) as Hlo.
    pose proof (proj1 (scaled_trunc_lt m e (scaled_trunc m e + 1)) ltac:(lia)) as Hhi.
    rewrite abs_cond_Zopp by exact HT.
    set (T := scaled_trunc m e) in *.
    unfold SF2Q. destruct (Z.leb_spec 0 e) as [He|He].
    + assert (Hx : 0 < Zpos m * 2 ^ e)
        by (apply Z.mul_pos_pos; [lia | apply Z.pow_pos_nonneg; lia]).
      unfold Qle, Qlt, Qabs, inject_Z. cbn [Qnum Qden].
      rewrite abs_cond_Zopp by lia.
      repeat split; try lia; destruct s; unfold cond_Zopp; lia.
    + assert (Hp : 0 < 2 ^ (- e)) by (apply Z.pow_pos_nonneg; lia).
      unfold Qle, Qlt, Qabs. cbn [Qnum Qden].
      rewrite abs_cond_Zopp by lia. rewrite Z2Pos.id by exact Hp.
      repeat split; try lia; destruct s; unfold cond_Zopp; nia.
Qed.

(** X14. Where the conversion is defined: for a binary32 [f],
    [FLOAT_TO_FIXED f] has a value exactly when [f] is finite and
    -16 - 1/2048 < f < 16. At 16.0f and above, at -16 - 1/2048 and below,
    and on infinities and NaN the cast to [s16] is undefined; nothing
    saturates. *)
Theorem FLOAT_TO_FIXED_domain (f : float) :
  is_binary32 f = true ->
  (FLOAT_TO_FIXED f <> None <->
   is_finite f = true /\ (- (32769 # 2048) < SF2Q f)%Q /\ (SF2Q f < 16)%Q).
Proof.
  intros Hv.
  destruct f as [s|s| |s m e].
  - split; [intros _; repeat split | intros _; destruct s; discriminate].
  - split; [intros H; exfalso; apply H; destruct s; reflexivity | intros [H _]; discriminate].
  - split; [intros H; exfalso; apply H; reflexivity | intros [H _]; discriminate].
  - unfold is_binary32, valid_binary in Hv.
    rewrite (FLOAT_TO_FIXED_finite s m e Hv).
    pose proof (scaled_trunc_nonneg m e) as HT.
    pose proof (scaled_trunc_lt m e 32768) as H8.
    pose proof (scaled_trunc_lt m e 32769) as H9.
    assert (Hbig : 93 < e -> 32769 <= scaled_trunc m e).
    { intros He. unfold scaled_trunc.
      destruct (Z.leb_spec 0 (e + 11)) as [_|C]; [|lia].
      assert (2 ^ 16 <= 2 ^ (e + 11)) by (apply Z.pow_le_mono_r; lia). nia. }
    set (T := scaled_trunc m e) in *. cbv zeta.
    assert (Hrange : (- 2 ^ 15 <=? cond_Zopp s T) && (cond_Zopp s T <? 2 ^ 15) = true
                     <-> T < (if s then 32769 else 32768)).
    { rewrite andb_true_iff, Z.leb_le, Z.ltb_lt.
      destruct s; unfold cond_Zopp; lia. }
    assert (Hq : T < (if s then 32769 else 32768) <->
                 (- (32769 # 2048) < SF2Q (S754_finite s m e))%Q /\
                 (SF2Q (S754_finite s m e) < 16)%Q).
    { unfold SF2Q. destruct (Z.leb_spec 0 e) as [He|He].
      - assert (Hx : 0 < Zpos m * 2 ^ e)
          by (apply Z.mul_pos_pos; [lia | apply Z.pow_pos_nonneg; lia]).
        unfold Qlt, inject_Z. cbn [Qnum Qden Qopp].
        destruct s; unfold cond_Zopp; lia.
      - assert (Hp : 0 < 2 ^ (- e)) by (apply Z.pow_pos_nonneg; lia).
        unfold Qlt. cbn [Qnum Qden Qopp]. rewrite Z2Pos.id by exact Hp.
        destruct s; unfold cond_Zopp; lia. }
    destruct (Z.leb_spec e 93) as [He|He].
    + destruct ((- 2 ^ 15 <=? cond_Zopp s T) && (cond_Zopp s T <? 2 ^ 15)) eqn:C.
      * split; [intros _; split; [reflexivity|]; apply Hq, Hrange; reflexivity | discriminate].
      * split; [intros H; exfalso; apply H; reflexivity|].
        intros [_ Hr]. apply Hq, Hrange in Hr. discriminate.
    + split; [intros H; exfalso; apply H; reflexivity|].
      intros [_ Hr]. apply Hq in Hr. specialize (Hbig He). destruct s; lia.
Qed.

(** ** The demo application *)

Lemma placeholder_value (b : bool) :
  (if b then FLOAT_TO_FIXED f_0_9 else FLOAT_TO_FIXED f_0_1)
  = Some (if b then 1843 else 204).
Proof. destruct b; reflexivity. Qed.

Lemma fill_outputs_placeholder (digit : Z) (outputs : list Z) :
  length outputs = 10%nat ->
  fill_outputs 11 digit 0 outputs = Some (placeholder_outputs digit).
Proof.
  intros Hlen.
  do 10 (destruct outputs as [|? outputs]; [discriminate Hlen|]).
  destruct outputs; [|discriminate Hlen]. clear Hlen.
  unfold placeholder_outputs. cbn [map].
  do 10 (cbn [fill_outputs]; rewrite placeholder_value;
         cbn [store length Z.of_nat Pos.of_succ_nat Pos.succ Z.ltb Z.leb Z.compare
              Pos.compare Pos.compare_cont orb Z.to_nat Pos.to_nat Pos.iter_op Nat.add
              firstn skipn app Z.add Pos.add Pos.add_carry]).
  reflexivity.
Qed.

Lemma NN_Classify_placeholder (digit : Z) :
  NN_Classify (placeholder_outputs digit) 10
  = Some (if (0 <=? digit) && (digit <? 10) then digit else 0).
Proof.
  unfold placeholder_outputs. cbn [map].
  destruct (Z.eqb_spec 0 digit) as [<-|H0]; [reflexivity|].
  destruct (Z.eqb_spec 1 digit) as [<-|H1]; [reflexivity|].
  destruct (Z.eqb_spec 2 digit) as [<-|H2]; [reflexivity|].
  destruct (Z.eqb_spec 3 digit) as [<-|H3]; [reflexivity|].
  destruct (Z.eqb_spec 4 digit) as [<-|H4]; [reflexivity|].
  destruct (Z.eqb_spec 5 digit) as [<-|H5]; [reflexivity|].
  destruct (Z.eqb_spec 6 digit) as [<-|H6]; [reflexivity|].
  destruct (Z.eqb_spec 7 digit) as [<-|H7]; [reflexivity|].
  destruct (Z.eqb_spec 8 digit) as [<-|H8]; [reflexivity|].
  destruct (Z.eqb_spec 9 digit) as [<-|H9]; [reflexivity|].
  destruct (Z.leb_spec 0 digit); destruct (Z.ltb_spec digit 10);
    cbn [andb]; try lia; reflexivity.
Qed.

Section DemoFacts.

Variable dev : device.

(** X15. [run_single_test], given the 50001 poll cycles its five-second wait
    can take, returns. On a time-out (-1) the [outputs] array is left as it
    was. On success (0) the array does not come from the accelerator: it is
    overwritten with 1843 (0.9) at [digit] and 204 (0.1) elsewhere, so
    [NN_Classify] of it is [digit] for every digit 0..9, whatever the device
    did. The call starts the accelerator and waits; it does not touch the
    held configuration. *)
Theorem run_single_test_fabricates (fuel : nat) (digit : Z) (outputs : list Z) (w : world) :
  length outputs = 10%nat ->
  50000 < Z.of_nat fuel ->
  exists r outputs' w',
    run_single_test dev fuel digit outputs w = Some (r, outputs', w') /\
    ((r = 0 /\ outputs' = placeholder_outputs digit) \/ (r = -1 /\ outputs' = outputs)) /\
    (r = 0 -> 0 <= digit < 10 -> NN_Classify outputs' 10 = Some digit) /\
    (r = -1 <-> forall j, Z.of_nat j <= 50000 ->
                  done_at dev (run (NN_Start dev) w) j = false) /\
    length outputs' = 10%nat /\
    g_config w' = g_config w /\
    only_adds reg_access_ok w w'.
Proof.
  intros Hlen Hf.
  destruct (NN_WaitDone_within dev TIMEOUT_US (run (NN_Start dev) w) fuel
              ltac:(unfold TIMEOUT_US; lia) ltac:(unfold TIMEOUT_US; cbn; lia))
    as (rw & w' & k & E & Hk & _ & _ & Ha & Hg & Hq & Hr).
  change ((TIMEOUT_US + 99) / 100) with 50000 in Hk, Hr.
  assert (Hadds : only_adds reg_access_ok w w').
  { apply (only_adds_trans _ _ (run (NN_Start dev) w)); [apply NN_Start_adds|].
    exact (only_adds_weaken _ _ _ _ poll_event_ok Ha). }
  assert (Hrun : run_single_test dev fuel digit outputs w
                 = if rw <? 0 then Some (-1, outputs, w')
                   else Some (0, placeholder_outputs digit, w')).
  { unfold run_single_test.
    destruct (NN_Start dev w) as [u w1] eqn:Es.
    assert (w1 = run (NN_Start dev) w) by (unfold run; rewrite Es; reflexivity). subst w1.
    rewrite E. destruct (rw <? 0); [reflexivity|].
    rewrite (fill_outputs_placeholder digit outputs Hlen). reflexivity. }
  destruct Hr as [[-> Hd] | (-> & Hd & Hk')]; cbn [Z.ltb Z.compare] in Hrun.
  - exists 0, (placeholder_outputs digit), w'.
    split; [exact Hrun|]. split; [left; auto|].
    split; [intros _ Hdig; rewrite NN_Classify_placeholder;
            destruct (Z.leb_spec 0 digit); destruct (Z.ltb_spec digit 10);
            cbn [andb]; try lia; reflexivity|].
    split; [split; [discriminate|]; intros Hall; rewrite (Hall k Hk) in Hd; discriminate|].
    split; [reflexivity|]. split; [exact Hg | exact Hadds].
  - exists (-1), outputs, w'.
    split; [exact Hrun|]. split; [right; auto|].
    split; [discriminate|].
    split; [split; [|reflexivity]; intros _ j Hj;
            destruct (Nat.eq_dec j k) as [->|Hne]; [exact Hd | apply Hq; lia]|].
    split; [exact Hlen|]. split; [exact Hg | exact Hadds].
Qed.

End DemoFacts.

Lemma NN_GetConfidence_placeholder (digit : Z) :
  0 <= digit < 10 ->
  NN_GetConfidence (placeholder_outputs digit) 10 digit = Some demo_confidence.
Proof.
  intros H.
  assert (C : digit = 0 \/ digit = 1 \/ digit = 2 \/ digit = 3 \/ digit = 4 \/
              digit = 5 \/ digit = 6 \/ digit = 7 \/ digit = 8 \/ digit = 9) by lia.
  repeat (destruct C as [->|C]; [vm_compute; reflexivity|]).
  subst. vm_compute. reflexivity.
Qed.

Lemma print_results_of_10 (correct : Z) :
  0 <= correct <= 10 ->
  print_results correct NUM_TESTS
  = Some (10 * correct,
          if 9 <=? correct then EXCELLENT
          else if 7 <=? correct then GOOD
          else if 5 <=? correct then FAIR
          else NEEDS_IMPROVEMENT).
Proof.
  intros H.
  assert (C : correct = 0 \/ correct = 1 \/ correct = 2 \/ correct = 3 \/ correct = 4 \/
              correct = 5 \/ correct = 6 \/ correct = 7 \/ correct = 8 \/ correct = 9 \/
              correct = 10) by lia.
  repeat (destruct C as [->|C]; [reflexivity|]). subst. reflexivity.
Qed.

Lemma passes_PASS (d : Z) (c : float) (vs : list verdict) :
  passes (PASS d c :: vs) = 1 + passes vs.
Proof. unfold passes. cbn [filter is_pass length]. lia. Qed.

Lemma passes_TIMEOUT (vs : list verdict) : passes (TIMEOUT :: vs) = passes vs.
Proof. reflexivity. Qed.

Lemma NN_Reset_adds (w : world) :
  only_adds reg_access_ok w (run NN_Reset w) /\ g_config (run NN_Reset w) = g_config w.
Proof.
  split; [|reflexivity]. eexists. split.
  - unfold run, NN_Reset, NN_WRITE, Xil_Out32, usleep, log, bind.
    cbn [snd trace]. rewrite <- !app_assoc. reflexivity.
  - reflexivity.
Qed.

Section MainFacts.

Variable dev : device.

(** The two ways [run_single_test] ends. *)
Lemma run_single_test_cases (fuel : nat) (digit : Z) (outputs : list Z) (w : world) :
  length outputs = 10%nat ->
  50000 < Z.of_nat fuel ->
  exists r outputs' w',
    run_single_test dev fuel digit outputs w = Some (r, outputs', w') /\
    ((r = 0 /\ outputs' = placeholder_outputs digit) \/ (r = -1 /\ outputs' = outputs)) /\
    g_config w' = g_config w /\
    only_adds reg_access_ok w w'.
Proof.
  intros Hlen Hf.
  destruct (NN_WaitDone_within dev TIMEOUT_US (run (NN_Start dev) w) fuel
              ltac:(unfold TIMEOUT_US; lia) ltac:(unfold TIMEOUT_US; cbn; lia))
    as (rw & w' & k & E & _ & _ & _ & Ha & Hg & _ & Hr).
  assert (Hadds : only_adds reg_access_ok w w').
  { apply (only_adds_trans _ _ (run (NN_Start dev) w)); [apply NN_Start_adds|].
    exact (only_adds_weaken _ _ _ _ poll_event_ok Ha). }
  assert (Hrun : run_single_test dev fuel digit outputs w
                 = if rw <? 0 then Some (-1, outputs, w')
                   else Some (0, placeholder_outputs digit, w')).
  { unfold run_single_test.
    destruct (NN_Start dev w) as [u w1] eqn:Es.
    assert (w1 = run (NN_Start dev) w) by (unfold run; rewrite Es; reflexivity). subst w1.
    rewrite E. destruct (rw <? 0); [reflexivity|].
    rewrite (fill_outputs_placeholder digit outputs Hlen). reflexivity. }
  destruct Hr as [[-> _] | (-> & _)]; cbn [Z.ltb Z.compare] in Hrun.
  - exists 0, (placeholder_outputs digit), w'. auto 6.
  - exists (-1), outputs, w'. auto 6.
Qed.

Lemma main_loop_spec (fuel : nat) :
  50000 < Z.of_nat fuel ->
  forall tests digit correct outputs printed w,
    length outputs = 10%nat -> 0 <= digit <= 10 -> 10 - digit < Z.of_nat tests ->
    exists outputs' new w',
      main_loop dev tests fuel digit correct outputs printed w
      = Some (correct + passes new, outputs', printed ++ new, w') /\
      Z.of_nat (length new) = 10 - digit /\
      verdicts_from digit new /\
      g_config w' = g_config w /\
      only_adds reg_access_ok w w'.
Proof.
  intros Hf. induction tests as [|tests IH];
    intros digit correct outputs printed w Hlen Hd Ht; [lia|].
  cbn [main_loop]. unfold NUM_TESTS.
  destruct (Z.ltb_spec digit 10) as [C|C].
  - destruct (run_single_test_cases fuel digit outputs w Hlen Hf)
      as (r & outs1 & w1 & E & Hcase & Hg & Ha).
    rewrite E.
    destruct Hcase as [[-> ->] | [-> ->]]; cbn [Z.ltb Z.compare].
    + rewrite NN_Classify_placeholder.
      destruct (Z.leb_spec 0 digit); [|lia]. destruct (Z.ltb_spec digit 10); [|lia].
      cbn [andb]. rewrite NN_GetConfidence_placeholder by lia.
      destruct (NN_Reset w1) as [u w2] eqn:Er.
      assert (Hw2 : w2 = run NN_Reset w1) by (unfold run; rewrite Er; reflexivity).
      rewrite Z.eqb_refl.
      destruct (IH (digit + 1) (correct + 1) (placeholder_outputs digit)
                   (printed ++ [PASS digit demo_confidence]) w2
                   ltac:(reflexivity) ltac:(lia) ltac:(lia))
        as (outs' & new & w' & E' & Hn & Hv & Hg' & Ha').
      exists outs', (PASS digit demo_confidence :: new), w'.
      split; [rewrite E', <- app_assoc, passes_PASS, Z.add_assoc; reflexivity|].
      split; [cbn [length]; lia|].
      split; [split; [right; reflexivity | exact Hv]|].
      split; [rewrite Hg', Hw2; exact Hg|].
      apply (only_adds_trans _ _ w1); [exact Ha|].
      apply (only_adds_trans _ _ w2); [|exact Ha'].
      rewrite Hw2. apply NN_Reset_adds.
    + destruct (IH (digit + 1) correct outputs (printed ++ [TIMEOUT]) w1
                   Hlen ltac:(lia) ltac:(lia))
        as (outs' & new & w' & E' & Hn & Hv & Hg' & Ha').
      exists outs', (TIMEOUT :: new), w'.
      split; [rewrite E', <- app_assoc, passes_TIMEOUT; reflexivity|].
      split; [cbn [length]; lia|].
      split; [split; [left; reflexivity | exact Hv]|].
      split; [rewrite Hg'; exact Hg|].
      exact (only_adds_trans _ _ _ _ Ha Ha').
  - exists outputs, [], w. rewrite app_nil_r.
    split; [unfold passes; cbn; rewrite Z.add_0_r; reflexivity|].
    split; [cbn [length Z.of_nat]; lia|]. split; [exact I|]. split; [reflexivity | apply only_adds_refl].
Qed.

End MainFacts.

Lemma passes_bounds (vs : list verdict) : 0 <= passes vs <= Z.of_nat (length vs).
Proof.
  unfold passes. induction vs as [|v vs IH]; cbn [filter length]; [lia|].
  destruct (is_pass v); cbn [length]; lia.
Qed.

Lemma verdicts_from_no_fail (vs : list verdict) : forall digit,
  verdicts_from digit vs -> forallb (fun v => negb (is_fail v)) vs = true.
Proof.
  induction vs as [|v vs IH]; intros digit H; [reflexivity|].
  destruct H as [[-> | ->] H]; cbn [forallb is_fail negb andb]; exact (IH _ H).
Qed.

Section MainClaims.

Variable dev : device.

(** X16. [main], given the 50001 poll cycles each wait can take, returns 0
    after ten tests. Each test is reported as a time-out or as a pass with
    the digit of the test and the same confidence, 1843/3679; no test is
    ever reported as failed, whatever the device answers. The accuracy
    printed is ten times the number of tests whose wait did not time out.
    The held configuration ends as the initial one marked initialized. *)
Theorem main_reports_no_failure (fuel : nat) (outputs : list Z) (w : world) :
  length outputs = 10%nat ->
  50000 < Z.of_nat fuel ->
  exists status printed rating w',
    main dev fuel outputs w
    = Some (0, Some (status, printed, (10 * passes printed, rating)), w') /\
    length printed = 10%nat /\
    verdicts_from 0 printed /\
    forallb (fun v => negb (is_fail v)) printed = true /\
    (rating = EXCELLENT <-> 9 <= passes printed) /\
    status = fst (NN_GetStatus dev (run (NN_Init None) w)) /\
    g_config w' = set_initialized (g_config w) /\
    only_adds reg_access_ok w w'.
Proof.
  intros Hlen Hf. unfold main.
  destruct (NN_Init None w) as [r0 w1] eqn:Ei.
  assert (Hr0 : r0 = 0) by (cbv in Ei; congruence).
  assert (Hw1 : w1 = run (NN_Init None) w) by (unfold run; rewrite Ei; reflexivity).
  subst r0. cbn [Z.ltb Z.compare].
  destruct (NN_GetStatus dev w1) as [status w2] eqn:Eg.
  assert (Hst : status = fst (NN_GetStatus dev w1)) by (rewrite Eg; reflexivity).
  assert (Hw2 : w2 = run (NN_GetStatus dev) w1) by (unfold run; rewrite Eg; reflexivity).
  destruct (main_loop_spec dev fuel Hf 11 0 0 outputs [] w2 Hlen ltac:(lia) ltac:(cbn; lia))
    as (outs' & new & w' & E & Hn & Hv & Hg & Ha).
  rewrite E. cbn [app Z.add].
  pose proof (passes_bounds new) as Hp.
  rewrite print_results_of_10 by lia.
  eexists status, new, _, w'. split; [reflexivity|].
  split; [lia|]. split; [exact Hv|].
  split; [exact (verdicts_from_no_fail new 0 Hv)|].
  split.
  { destruct (Z.leb_spec 9 (passes new)); [split; [lia | reflexivity]|].
    split; [|lia]. destruct (7 <=? passes new); [discriminate|].
    destruct (5 <=? passes new); discriminate. }
  split; [rewrite Hst, Hw1; reflexivity|].
  split; [rewrite Hg, Hw2, Hw1, NN_Init_world; reflexivity|].
  apply (only_adds_trans _ _ w1); [rewrite Hw1; apply NN_Init_adds|].
  apply (only_adds_trans _ _ w2); [|exact Ha].
  rewrite Hw2. eexists. split; [reflexivity | reflexivity].
Qed.

End MainClaims.

(** X17. [print_results]: for 0 <= correct <= total with total > 0 (and
    correct * 100 an [int]) the accuracy printed is the percentage rounded
    down, from 0 to 100, and 100 only when every test was correct; the
    rating is EXCELLENT from 90 percent, GOOD from 70, FAIR from 50 and
    NEEDS IMPROVEMENT below, and the rounding never moves a rating. With
    total = 0 the division is undefined. *)
Theorem print_results_accuracy (correct total : Z) :
  0 <= correct <= total -> 0 < total -> correct * 100 < 2 ^ 31 ->
  exists accuracy rating,
    print_results correct total = Some (accuracy, rating) /\
    0 <= accuracy <= 100 /\
    accuracy * total <= 100 * correct < (accuracy + 1) * total /\
    (accuracy = 100 <-> correct = total) /\
    (rating = EXCELLENT <-> 90 * total <= 100 * correct) /\
    (rating = GOOD <-> 70 * total <= 100 * correct < 90 * total) /\
    (rating = FAIR <-> 50 * total <= 100 * correct < 70 * total) /\
    (rating = NEEDS_IMPROVEMENT <-> 100 * correct < 50 * total) /\
    print_results correct 0 = None.
Proof.
  intros Hc Ht Hmax. unfold print_results.
  destruct (Z.ltb_spec (correct * 100) (- 2 ^ 31)) as [C1|_]; [lia|].
  destruct (Z.leb_spec (2 ^ 31) (correct * 100)) as [C2|_]; [lia|].
  destruct (Z.eqb_spec total 0) as [C3|_]; [lia|]. cbn [orb].
  rewrite Z.quot_div_nonneg by lia.
  set (a := correct * 100 / total).
  pose proof (Z.div_mod (correct * 100) total ltac:(lia)) as Hdm.
  pose proof (Z.mod_pos_bound (correct * 100) total Ht) as Hr.
  fold a in Hdm.
  assert (Ha : a * total <= 100 * correct < (a + 1) * total) by nia.
  assert (Ha0 : 0 <= a <= 100) by nia.
  eexists a, _. split; [reflexivity|].
  split; [exact Ha0|]. split; [exact Ha|].
  split; [split; intros; nia|].
  destruct (Z.leb_spec 90 a) as [H90|H90];
    [|destruct (Z.leb_spec 70 a) as [H70|H70];
      [|destruct (Z.leb_spec 50 a) as [H50|H50]]];
    (repeat split; intros; try discriminate; try reflexivity; try nia).
Qed.

(** ** Instances of the further properties *)

Lemma driver_bus_discipline_witness :
  only_adds reg_access_ok world_init (run NN_Reset world_init) /\
  only_adds reg_access_ok world_init (run (NN_IsDone dev_always_done) world_init).
Proof.
  pose proof (driver_bus_discipline dev_always_done world_init)
    as (_ & Hreset & _ & _ & _ & _ & _ & _ & Hwait & _).
  split; [exact Hreset|].
  apply (Hwait 1%nat 100 0). reflexivity.
Defined.

Lemma NN_WaitDone_bounded_witness :
  exists r w' k,
    NN_WaitDone (dev_done_after 2) 11 1000 world_init = Some (r, w') /\
    Z.of_nat k <= 10 /\
    slept (trace w') - slept (trace world_init) < 1100 /\
    g_config w' = g_config world_init.
Proof.
  destruct (NN_WaitDone_bounded (dev_done_after 2) 1000 world_init 11)
    as (r & w' & k & E & Hk & _ & _ & Hs & _ & Hg & _).
  - lia.
  - vm_compute. reflexivity.
  - exists r, w', k. repeat split; assumption.
Defined.

Lemma NN_RunInference_keeps_config_witness :
  exists r w',
    NN_RunInference dev_always_done (Z.to_nat 100001) world_init = Some (r, w') /\
    g_config w' = set_initialized (g_config world_init) /\
    topology (g_config w') = topology (g_config world_init).
Proof.
  destruct (NN_RunInference_keeps_config dev_always_done (Z.to_nat 100001) world_init)
    as (r & w' & E & Hg & _ & Ht & _).
  - lia.
  - exists r, w'. repeat split; assumption.
Defined.

Lemma NN_Configure_survives_lazy_init_witness :
  topology (g_config (inference_started dev_never_done
                        (run (NN_Configure 100 8 8 4) world_init)))
  = (100, 8, 8, 4).
Proof.
  pose proof (NN_Configure_survives_lazy_init dev_never_done 100 8 8 4 world_init
                eq_refl) as H.
  cbv zeta in H. destruct H as (v & _ & Hg). rewrite Hg. reflexivity.
Defined.

Lemma NN_Reset_keeps_initialized_witness :
  g_config (run NN_Reset (run (NN_Init None) world_init))
  = g_config (run (NN_Init None) world_init) /\
  slept (trace (run NN_Reset (run (NN_Init None) world_init)))
  = slept (trace (run (NN_Init None) world_init)) + 20.
Proof.
  pose proof (NN_Reset_keeps_initialized dev_never_done (run (NN_Init None) world_init)
                ltac:(discriminate)) as H.
  cbv zeta in H. destruct H as (Hg & _ & Hs & _). split; assumption.
Defined.

Lemma NN_Classify_order_only_witness :
  NN_Classify (map (fun x => 2 * x + 1) [3; 1; 3; 2]) 4 = NN_Classify [3; 1; 3; 2] 4.
Proof.
  apply (NN_Classify_order_only (fun x => 2 * x + 1)). intros x y H. lia.
Defined.

Lemma NN_Classify_float_max_witness :
  exists idx sel,
    NN_Classify [204; 1843; 1843] 3 = Some idx /\
    load [204; 1843; 1843] idx = Some sel /\
    forall j v, 0 <= j < idx -> load [204; 1843; 1843] j = Some v ->
      (SF2Q (FIXED_TO_FLOAT v) < SF2Q (FIXED_TO_FLOAT sel))%Q.
Proof.
  destruct (NN_Classify_float_max [204; 1843; 1843] 3)
    as (idx & sel & E & _ & L & _ & Hlt).
  - lia.
  - cbn [length Z.of_nat]. lia.
  - repeat constructor; unfold is_s16; lia.
  - exists idx, sel. repeat split; assumption.
Defined.

Lemma NN_Classify_edges_witness :
  NN_Classify [7; 9] 1 = Some 0 /\ NN_Classify [7; 9] 3 = None.
Proof.
  split.
  - apply (proj1 (proj2 (NN_Classify_edges [7; 9] 1 ltac:(lia))));
      [lia | discriminate].
  - apply (proj2 (proj2 (proj2 (NN_Classify_edges [7; 9] 3 ltac:(lia))))).
    cbn [length Z.of_nat]. lia.
Defined.

Lemma NN_GetConfidence_edges_witness :
  NN_GetConfidence [204; 1843] 0 1 = Some (FIXED_TO_FLOAT 1843) /\
  NN_GetConfidence [204; 1843] 1 2 = None.
Proof.
  split.
  - apply (proj1 (NN_GetConfidence_edges [204; 1843] 0 1 ltac:(lia)
                    ltac:(cbn [length Z.of_nat]; lia)) 1843);
      reflexivity.
  - apply (proj2 (NN_GetConfidence_edges [204; 1843] 1 2 ltac:(lia)
                    ltac:(cbn [length Z.of_nat]; lia))).
    right. cbn [length Z.of_nat]. lia.
Defined.

Lemma FLOAT_TO_FIXED_of_FIXED_TO_FLOAT_witness :
  FLOAT_TO_FIXED (FIXED_TO_FLOAT (-32768)) = Some (-32768).
Proof.
  apply FLOAT_TO_FIXED_of_FIXED_TO_FLOAT. unfold is_s16. lia.
Defined.

Lemma FLOAT_TO_FIXED_truncates_witness :
  (Z.abs 204 # 2048 <= Qabs (SF2Q f_0_1))%Q /\
  (Qabs (SF2Q f_0_1) < (Z.abs 204 + 1) # 2048)%Q.
Proof.
  destruct (FLOAT_TO_FIXED_truncates f_0_1 204) as (H1 & H2 & _).
  - reflexivity.
  - reflexivity.
  - split; assumption.
Defined.

Lemma FLOAT_TO_FIXED_domain_witness :
  FLOAT_TO_FIXED (S754_finite false 8388608 (-19)) = None.
Proof.
  destruct (FLOAT_TO_FIXED (S754_finite false 8388608 (-19))) as [raw|] eqn:E;
    [|reflexivity].
  exfalso.
  assert (H : FLOAT_TO_FIXED (S754_finite false 8388608 (-19)) <> None)
    by (rewrite E; discriminate).
  apply (proj1 (FLOAT_TO_FIXED_domain (S754_finite false 8388608 (-19))
                  ltac:(reflexivity))) in H.
  destruct H as (_ & _ & H). vm_compute in H. discriminate H.
Defined.

Lemma run_single_test_fabricates_witness :
  exists r outputs' w',
    run_single_test dev_never_done (Z.to_nat 50001) 3 (repeat 0 10) world_init
    = Some (r, outputs', w') /\
    ((r = 0 /\ outputs' = placeholder_outputs 3) \/ (r = -1 /\ outputs' = repeat 0 10)) /\
    g_config w' = g_config world_init.
Proof.
  destruct (run_single_test_fabricates dev_never_done (Z.to_nat 50001) 3
              (repeat 0 10) world_init)
    as (r & o & w' & E & H & _ & _ & _ & Hg & _).
  - reflexivity.
  - lia.
  - exists r, o, w'. repeat split; assumption.
Defined.

Lemma main_reports_no_failure_witness :
  exists status printed rating w',
    main dev_always_done (Z.to_nat 50001) (repeat 0 10) world_init
    = Some (0, Some (status, printed, (10 * passes printed, rating)), w') /\
    forallb (fun v => negb (is_fail v)) printed = true.
Proof.
  destruct (main_reports_no_failure dev_always_done (Z.to_nat 50001)
              (repeat 0 10) world_init)
    as (st & pr & ra & w' & E & _ & _ & Hf & _).
  - reflexivity.
  - lia.
  - exists st, pr, ra, w'. split; assumption.
Defined.

Lemma print_results_accuracy_witness :
  print_results 21474836 21474836 = Some (100, EXCELLENT).
Proof.
  destruct (print_results_accuracy 21474836 21474836)
    as (a & r & E & _ & Ha & _ & Hex & _); [lia | lia | lia |].
  assert (Ea : a = 100) by lia.
  assert (Er : r = EXCELLENT) by (apply Hex; lia).
  rewrite <- Ea, <- Er. exact E.
Defined.
